(** * Dokan storefront: cart and wishlist collections

    A shallow embedding of [products/static/products/js/products.js]:
    the two item collections [DokanCart] and [DokanWishlist], their
    persistence through [localStorage], the add-to-cart path of
    [DokanStore], and the properties the specification states about them.

    Modelling choices:
    - a JavaScript number is an IEEE 754 binary64 value: prices,
      quantities and totals are [float], the kernel's binary64 numbers,
      and [+], [*] and [<=] are the binary64 operations.  What needs
      reasoning about them rests on the specification of these operations
      in the standard library ([FloatAxioms]);
    - a property of a row holds a string or a number, or [null] (what a
      reload makes of a number JSON cannot write), or [undefined] (an
      argument the caller left out, a property the stored object lacks);
    - [this.items] is an array of object references.  [Array.prototype.find]
      hands out the first matching object itself, so an assignment to one
      of its fields is an in-place update of the array at that index;
    - [localStorage] is global state.  Every method receives the receiver
      object and the storage and returns both;
    - [new Date().toISOString()] reads the clock; the timestamp is an
      explicit argument [now];
    - a string kept in [localStorage] is either JSON text, represented by
      the value tree it spells ([json]), or some other string. *)

From Stdlib Require Import ZArith Lia Floats.PrimFloat Floats.SpecFloat Floats.FloatOps
  Floats.FloatAxioms.
From stdpp Require Import gmap strings list.

Set Warnings "-inexact-float,-register-all".
Local Open Scope Z_scope.

(** ** JavaScript values *)

Abbreviation number := float (only parsing).

(** What a property or an argument of type [A] can hold. *)
Inductive value (A : Type) : Type :=
  | Undefined
  | Null
  | Val (a : A).

Arguments Undefined {A}.
Arguments Null {A}.
Arguments Val {A} a.

(** [===] between two strings, [null] or [undefined]. *)
#[global] Instance value_eq_dec `{EqDecision A} : EqDecision (value A).
Proof. solve_decision. Defined.

(** [ToNumber]: what arithmetic and comparison make of an operand. *)
Definition to_number (v : value number) : number :=
  match v with
  | Undefined => nan
  | Null => 0%float
  | Val x => x
  end.

(** A default parameter [x = d]: used when the argument is [undefined]. *)
Definition or_default {A} (d : A) (v : value A) : value A :=
  match v with
  | Undefined => Val d
  | _ => v
  end.

(** The binary64 value of an integer: the nearest representable number,
    ties to even, exact below [2^53] in magnitude. *)
Definition number_of_Z (z : Z) : number :=
  SF2Prim (binary_normalize prec emax z 0 false).

(** ** JSON documents *)

(** A numeral is kept as the binary64 value it reads as. *)
Inductive json : Type :=
  | JNull
  | JBool (b : bool)
  | JNum (x : number)
  | JString (s : string)
  | JArray (elements : list json)
  | JObject (members : list (string * json)).

(** [JSON.stringify] on a number: [NaN] and the infinities are written as
    [null], negative zero is written as [0]. *)
Definition json_of_number (x : number) : json :=
  if is_finite x
  then JNum (if PrimFloat.Leibniz.eqb x neg_zero then zero else x)
  else JNull.

(** What [JSON.stringify] writes for one property of an object: nothing
    when it is [undefined]. *)
Definition string_member (k : string) (v : value string) : list (string * json) :=
  match v with
  | Undefined => []
  | Null => [(k, JNull)]
  | Val s => [(k, JString s)]
  end.

Definition number_member (k : string) (v : value number) : list (string * json) :=
  match v with
  | Undefined => []
  | Null => [(k, JNull)]
  | Val x => [(k, json_of_number x)]
  end.

(** Reading a parsed object back, member by member in the order of the
    object literal that wrote it: a member that is not there reads as
    [undefined].  The answer is [None] for a member of another type. *)
Definition read_string (k : string) (o : list (string * json))
    : option (value string * list (string * json)) :=
  match o with
  | (k', j) :: o' =>
      if String.eqb k k'
      then match j with
           | JNull => Some (Null, o')
           | JString s => Some (Val s, o')
           | _ => None
           end
      else Some (Undefined, o)
  | [] => Some (Undefined, [])
  end.

Definition read_number (k : string) (o : list (string * json))
    : option (value number * list (string * json)) :=
  match o with
  | (k', j) :: o' =>
      if String.eqb k k'
      then match j with
           | JNull => Some (Null, o')
           | JNum x => Some (Val x, o')
           | _ => None
           end
      else Some (Undefined, o)
  | [] => Some (Undefined, [])
  end.

(** The two collections serialise their own item shape; what they share
    is the array layer.  [of_json] is [None] for an object that is not of
    the shape [to_json] writes. *)
Class Json (A : Type) := {
  to_json : A → json;
  of_json : json → option A
}.

Definition JSON_stringify `{Json A} (items : list A) : json :=
  JArray (to_json <$> items).

Definition JSON_parse `{Json A} (doc : json) : option (list A) :=
  match doc with
  | JArray elements => mapM of_json elements
  | _ => None
  end.

(** ** localStorage *)

(** A stored string: JSON text, kept as the tree it spells, or any other
    string, kept as it is (the empty string is of this kind). *)
Inductive stored : Type :=
  | Document (doc : json)
  | OtherText (s : string).

Abbreviation Storage := (gmap string stored) (only parsing).

Definition getItem (k : string) (ls : Storage) : option stored := ls !! k.
Definition setItem (k : string) (v : stored) (ls : Storage) : Storage := <[k := v]> ls.

(** How [this.items = cart ? JSON.parse(cart) : []] ends: with a list of
    rows, with the [SyntaxError] that [JSON.parse] throws on text that is
    not JSON, or with [this.items] set to a parsed value that is not a
    list of rows of the shape the collection writes. *)
Inductive loaded (T : Type) : Type :=
  | Loaded (this : T)
  | SyntaxError
  | Untyped (doc : json).

Arguments Loaded {T} this.
Arguments SyntaxError {T}.
Arguments Untyped {T} doc.

(** ** class DokanCart *)

Module DokanCart.

Record LineItem := {
  productId : value string;
  productName : value string;
  price : value number;
  quantity : value number;
  image : value string;
  addedAt : value string
}.

Definition with_quantity (item : LineItem) (q : value number) : LineItem :=
  {| productId := productId item; productName := productName item;
     price := price item; quantity := q;
     image := image item; addedAt := addedAt item |}.

(** A row is written with its properties in the order of the object
    literal in [addToCart].  Every row the cart builds has a [quantity]
    property, and assignments to it keep its place; a stored object
    without one is not read as a row. *)
#[global] Instance LineItem_json : Json LineItem := {
  to_json item :=
    JObject (string_member "productId" (productId item) ++
             string_member "productName" (productName item) ++
             number_member "price" (price item) ++
             number_member "quantity" (quantity item) ++
             string_member "image" (image item) ++
             string_member "addedAt" (addedAt item));
  of_json j :=
    match j with
    | JObject o =>
        '(pid, o) ← read_string "productId" o;
        '(name, o) ← read_string "productName" o;
        '(p, o) ← read_number "price" o;
        '(q, o) ← read_number "quantity" o;
        '(img, o) ← read_string "image" o;
        '(at', o) ← read_string "addedAt" o;
        match o, q with
        | [], Null | [], Val _ =>
            Some {| productId := pid; productName := name; price := p;
                    quantity := q; image := img; addedAt := at' |}
        | _, _ => None
        end
    | _ => None
    end
}.

Record t := { key : string; items : list LineItem }.

Definition with_items (this : t) (l : list LineItem) : t :=
  {| key := key this; items := l |}.

(** [loadCart]: [getItem] answers [null] for a missing key; [null] and
    the empty string are falsy and give the empty collection; any other
    string goes to [JSON.parse]. *)
Definition loadCart (this : t) (ls : Storage) : loaded t :=
  match getItem (key this) ls with
  | None => Loaded (with_items this [])
  | Some (OtherText "") => Loaded (with_items this [])
  | Some (OtherText _) => SyntaxError
  | Some (Document cart) =>
      match JSON_parse cart with
      | Some l => Loaded (with_items this l)
      | None => Untyped cart
      end
  end.

Definition constructor (ls : Storage) : loaded t :=
  loadCart {| key := "dokan_cart"; items := [] |} ls.

Definition saveCart (this : t) (ls : Storage) : Storage :=
  setItem (key this) (Document (JSON_stringify (items this))) ls.

(** [quantity = 1] and [image = ''] are default parameters.  [find]
    returns the object stored at the first matching index, so
    [existingItem.quantity += quantity] rewrites the array at that index;
    the sum is a binary64 sum of the two operands as numbers. *)
Definition addToCart (pid name : value string) (p : value number)
    (quantity' : value number) (image' : value string) (now : string)
    (this : t) (ls : Storage) : t * Storage :=
  let q := or_default 1%float quantity' in
  let img := or_default "" image' in
  let this' :=
    match list_find (λ item, productId item = pid) (items this) with
    | Some (i, existingItem) =>
        with_items this
          (<[i := with_quantity existingItem
                    (Val (to_number (quantity existingItem) + to_number q)%float)]>
             (items this))
    | None =>
        with_items this
          (items this ++
             [{| productId := pid; productName := name; price := p;
                 quantity := q; image := img; addedAt := Val now |}])
    end in
  (this', saveCart this' ls).

Definition removeFromCart (pid : value string) (this : t) (ls : Storage)
    : t * Storage :=
  let this' :=
    with_items this (filter (λ item, productId item ≠ pid) (items this)) in
  (this', saveCart this' ls).

(** The assignment [item.quantity = quantity] comes first; the test reads
    the field back, and [removeFromCart] then works on the updated array.
    The quantity is whatever the caller passes: [NaN], [undefined] and
    every number above zero take the second branch, [null] counts as
    zero. *)
Definition updateQuantity (pid : value string) (q : value number) (this : t)
    (ls : Storage) : t * Storage :=
  match list_find (λ item, productId item = pid) (items this) with
  | Some (i, item) =>
      let item' := with_quantity item q in
      let this' := with_items this (<[i := item']> (items this)) in
      if (to_number (quantity item') <=? 0)%float
      then removeFromCart pid this' ls
      else (this', saveCart this' ls)
  | None => (this, ls)
  end.

Definition getTotalItems (this : t) : number :=
  fold_left (λ total item, (total + to_number (quantity item))%float)
    (items this) 0%float.

Definition getSubtotal (this : t) : number :=
  fold_left
    (λ total item,
       (total + to_number (price item) * to_number (quantity item))%float)
    (items this) 0%float.

Definition clearCart (this : t) (ls : Storage) : t * Storage :=
  let this' := with_items this [] in
  (this', saveCart this' ls).

End DokanCart.

(** ** class DokanWishlist *)

Module DokanWishlist.

Record WishlistEntry := {
  productId : value string;
  productName : value string;
  price : value number;
  image : value string;
  addedAt : value string
}.

#[global] Instance WishlistEntry_json : Json WishlistEntry := {
  to_json item :=
    JObject (string_member "productId" (productId item) ++
             string_member "productName" (productName item) ++
             number_member "price" (price item) ++
             string_member "image" (image item) ++
             string_member "addedAt" (addedAt item));
  of_json j :=
    match j with
    | JObject o =>
        '(pid, o) ← read_string "productId" o;
        '(name, o) ← read_string "productName" o;
        '(p, o) ← read_number "price" o;
        '(img, o) ← read_string "image" o;
        '(at', o) ← read_string "addedAt" o;
        match o with
        | [] =>
            Some {| productId := pid; productName := name; price := p;
                    image := img; addedAt := at' |}
        | _ => None
        end
    | _ => None
    end
}.

Record t := { key : string; items : list WishlistEntry }.

Definition with_items (this : t) (l : list WishlistEntry) : t :=
  {| key := key this; items := l |}.

Definition loadWishlist (this : t) (ls : Storage) : loaded t :=
  match getItem (key this) ls with
  | None => Loaded (with_items this [])
  | Some (OtherText "") => Loaded (with_items this [])
  | Some (OtherText _) => SyntaxError
  | Some (Document wishlist) =>
      match JSON_parse wishlist with
      | Some l => Loaded (with_items this l)
      | None => Untyped wishlist
      end
  end.

Definition constructor (ls : Storage) : loaded t :=
  loadWishlist {| key := "dokan_wishlist"; items := [] |} ls.

Definition saveWishlist (this : t) (ls : Storage) : Storage :=
  setItem (key this) (Document (JSON_stringify (items this))) ls.

(** The result is the returned boolean, the receiver and the storage. *)
Definition addToWishlist (pid name : value string) (p : value number)
    (image' : value string) (now : string)
    (this : t) (ls : Storage) : bool * t * Storage :=
  let img := or_default "" image' in
  match list_find (λ item, productId item = pid) (items this) with
  | None =>
      let this' :=
        with_items this
          (items this ++
             [{| productId := pid; productName := name; price := p;
                 image := img; addedAt := Val now |}]) in
      (true, this', saveWishlist this' ls)
  | Some _ => (false, this, ls)
  end.

Definition removeFromWishlist (pid : value string) (this : t) (ls : Storage)
    : t * Storage :=
  let this' :=
    with_items this (filter (λ item, productId item ≠ pid) (items this)) in
  (this', saveWishlist this' ls).

Definition getTotalItems (this : t) : nat := length (items this).

Definition isInWishlist (pid : value string) (this : t) : bool :=
  existsb (λ item, bool_decide (productId item = pid)) (items this).

End DokanWishlist.

(** ** class DokanStore *)

Module DokanStore.

Record t := { cart : DokanCart.t; wishlist : DokanWishlist.t }.

(** [handleAddToCart], as far as cart and storage are concerned; the
    spinner on the button and the delayed refresh of the badge do not
    touch them.  The data attributes of the button are arguments, absent
    ones being [undefined]: [p] is the value of
    [parseFloat(button.dataset.price)], which is [NaN] when the attribute
    cannot be read as a number, and [dataset.image || ''] is the empty
    string for an absent or empty image attribute.  This is the one place
    where the file calls [addToCart], and it passes the quantity 1. *)
Definition handleAddToCart (productId productName : value string) (p : number)
    (dataset_image : value string) (now : string)
    (this : t) (ls : Storage) : t * Storage :=
  let image := match dataset_image with Val s => s | _ => "" end in
  let r := DokanCart.addToCart productId productName (Val p) (Val 1%float)
             (Val image) now (cart this) ls in
  ({| cart := r.1; wishlist := wishlist this |}, r.2).


End DokanStore.

(** ** The click listener of [bindEvents] *)

(** What the listener reads of an element: its class list and the data
    attributes of an add-to-cart button ([data_price] is the value of
    [parseFloat] on the price attribute). *)
Record Element := {
  classList : list string;
  data_productId : value string;
  data_productName : value string;
  data_price : number;
  data_image : value string
}.

(** A click: the element clicked and its ancestors, nearest first. *)
Record ClickEvent := { target : Element; ancestors : list Element }.

(** [element.classList.contains(cls)]. *)
Definition contains (cls : string) (element : Element) : bool :=
  bool_decide (cls ∈ classList element).

(** [element.closest('.' + cls)]: the element itself or its nearest
    ancestor that carries the class, [null] when there is none. *)
Definition closest (cls : string) (e : ClickEvent) : option Element :=
  snd <$> list_find (λ element, cls ∈ classList element) (target e :: ancestors e).

(** The listener [bindEvents] puts on the document, as far as cart and
    storage are concerned. *)
Definition click_listener (e : ClickEvent) (now : string)
    (this : DokanStore.t) (ls : Storage) : DokanStore.t * Storage :=
  if contains "add-to-cart" (target e) || bool_decide (is_Some (closest "add-to-cart" e))
  then
    let button :=
      if contains "add-to-cart" (target e) then Some (target e)
      else closest "add-to-cart" e in
    match button with
    | Some button =>
        DokanStore.handleAddToCart (data_productId button) (data_productName button)
          (data_price button) (data_image button) now this ls
    | None => (this, ls)
    end
  else (this, ls).

(** ** Notions used by the specification *)

(** The data-model invariant of a cart: one row per product id, and every
    row carries a quantity of at least one. *)
Definition unique_ids (l : list DokanCart.LineItem) : Prop :=
  NoDup (DokanCart.productId <$> l).

Definition quantities_positive (l : list DokanCart.LineItem) : Prop :=
  Forall (λ item, (1 <=? to_number (DokanCart.quantity item))%float = true) l.

Definition cart_invariant (this : DokanCart.t) : Prop :=
  unique_ids (DokanCart.items this) ∧ quantities_positive (DokanCart.items this).

(** The stored document is the serialisation of the in-memory items. *)
Definition persisted (this : DokanCart.t) (ls : Storage) : Prop :=
  getItem (DokanCart.key this) ls =
    Some (Document (JSON_stringify (DokanCart.items this))).


(** The mutating calls a client can make on a cart, and their replay. *)
Inductive cart_call : Type :=
  | Add (pid name : value string) (p : value number) (quantity' : value number)
        (image' : value string) (now : string)
  | Remove (pid : value string)
  | SetQuantity (pid : value string) (q : value number)
  | Clear.

Definition call (c : cart_call) (s : DokanCart.t * Storage)
    : DokanCart.t * Storage :=
  match c with
  | Add pid name p quantity' image' now =>
      DokanCart.addToCart pid name p quantity' image' now s.1 s.2
  | Remove pid => DokanCart.removeFromCart pid s.1 s.2
  | SetQuantity pid q => DokanCart.updateQuantity pid q s.1 s.2
  | Clear => DokanCart.clearCart s.1 s.2
  end.

Definition run (cs : list cart_call) (s : DokanCart.t * Storage)
    : DokanCart.t * Storage :=
  fold_left (λ s c, call c s) cs s.

(** Calls whose quantities are integers: an [addToCart] with an integer
    quantity or none, an [updateQuantity] with an integer quantity. *)
Inductive integer_call : Type :=
  | IAdd (pid name : value string) (p : value number) (n : option Z)
         (image' : value string) (now : string)
  | IRemove (pid : value string)
  | ISetQuantity (pid : value string) (n : Z)
  | IClear.

(** The quantity argument of such an [addToCart]: left out, or the
    number an integer is. *)
Definition quantity_argument (n : option Z) : value number :=
  match n with
  | Some n => Val (number_of_Z n)
  | None => Undefined
  end.

Definition cart_call_of (c : integer_call) : cart_call :=
  match c with
  | IAdd pid name p n image' now =>
      Add pid name p (quantity_argument n) image' now
  | IRemove pid => Remove pid
  | ISetQuantity pid n => SetQuantity pid (Val (number_of_Z n))
  | IClear => Clear
  end.

(** An [addToCart] that passes a quantity of at least one (the default
    is 1). *)
Definition adds_at_least_one (c : integer_call) : Prop :=
  match c with
  | IAdd _ _ _ n _ _ => 1 ≤ default 1 n
  | _ => True
  end.

(** The size of the quantity a call passes, and of those a sequence of
    calls passes altogether. *)
Definition requested (c : integer_call) : Z :=
  match c with
  | IAdd _ _ _ n _ _ => Z.abs (default 1 n)
  | ISetQuantity _ n => Z.abs n
  | _ => 0
  end.


(** Integers that binary64 holds exactly and adds exactly. *)
Definition safe (n : Z) : Prop := - 2 ^ 53 < n < 2 ^ 53.

(** The quantities of the rows are non-negative integers that add up
    to [N]. *)
Inductive integer_total : list DokanCart.LineItem → Z → Prop :=
  | integer_total_nil : integer_total [] 0
  | integer_total_cons item l n N :
      DokanCart.quantity item = Val (number_of_Z n) → 0 ≤ n →
      integer_total l N → integer_total (item :: l) (n + N).

(** Every row carries an integer quantity between 1 and [B]. *)
Definition quantities_within (B : Z) (l : list DokanCart.LineItem) : Prop :=
  Forall
    (λ item, ∃ m, DokanCart.quantity item = Val (number_of_Z m) ∧ 1 ≤ m ≤ B) l.

(** The prices and the quantities of the rows are non-negative integers
    below [2^53], and price times quantity adds up to [T]. *)
Inductive integer_subtotal : list DokanCart.LineItem → Z → Prop :=
  | integer_subtotal_nil : integer_subtotal [] 0
  | integer_subtotal_cons item l p n T :
      DokanCart.price item = Val (number_of_Z p) →
      DokanCart.quantity item = Val (number_of_Z n) →
      0 ≤ p < 2 ^ 53 → 0 ≤ n < 2 ^ 53 →
      integer_subtotal l T → integer_subtotal (item :: l) (p * n + T).

(** Price times quantity of one row, as a binary64 product. *)
Definition line_total (item : DokanCart.LineItem) : number :=
  (to_number (DokanCart.price item) * to_number (DokanCart.quantity item))%float.

(** [x1 + x2 + ... + xn] in binary64, added up from zero in list order:
    the sum of a list extended by [x] is the sum of the list plus [x].
    Binary64 addition is not associative, so the order is part of the
    definition. *)
Fixpoint sum_backwards (xs : list number) : number :=
  match xs with
  | [] => 0%float
  | x :: xs' => (sum_backwards xs' + x)%float
  end.

Definition sum_in_order (xs : list number) : number :=
  sum_backwards (rev xs).

(** Numbers that a JSON numeral reproduces exactly: finite, and not the
    negative zero. *)
Definition json_exact (x : number) : bool :=
  is_finite x && negb (PrimFloat.Leibniz.eqb x neg_zero).

Definition exact_value (v : value number) : Prop :=
  match v with
  | Val x => json_exact x = true
  | _ => True
  end.

(** What a number property is after it has been written and read back. *)
Definition reload_number (v : value number) : value number :=
  match v with
  | Val x =>
      if is_finite x
      then Val (if PrimFloat.Leibniz.eqb x neg_zero then zero else x)
      else Null
  | _ => v
  end.


Definition reloaded_entry (item : DokanWishlist.WishlistEntry)
    : DokanWishlist.WishlistEntry :=
  {| DokanWishlist.productId := DokanWishlist.productId item;
     DokanWishlist.productName := DokanWishlist.productName item;
     DokanWishlist.price := reload_number (DokanWishlist.price item);
     DokanWishlist.image := DokanWishlist.image item;
     DokanWishlist.addedAt := DokanWishlist.addedAt item |}.




(** ** Notions used for the remaining methods *)

(** One entry per product id in a wishlist. *)
Definition wishlist_unique_ids (l : list DokanWishlist.WishlistEntry) : Prop :=
  NoDup (DokanWishlist.productId <$> l).

(** The mutating calls a client can make on a wishlist, and their replay;
    the boolean [addToWishlist] returns is dropped. *)
Inductive wishlist_call : Type :=
  | WAdd (pid name : value string) (p : value number) (image' : value string)
         (now : string)
  | WRemove (pid : value string).

Definition wishlist_step (c : wishlist_call) (s : DokanWishlist.t * Storage)
    : DokanWishlist.t * Storage :=
  match c with
  | WAdd pid name p image' now =>
      let r := DokanWishlist.addToWishlist pid name p image' now s.1 s.2 in
      (r.1.2, r.2)
  | WRemove pid => DokanWishlist.removeFromWishlist pid s.1 s.2
  end.

Definition wishlist_run (cs : list wishlist_call) (s : DokanWishlist.t * Storage)
    : DokanWishlist.t * Storage :=
  fold_left (λ s c, wishlist_step c s) cs s.

(** Wishlist and storage agree, in the sense of [in_sync]. *)
Definition wishlist_in_sync (this : DokanWishlist.t) (ls : Storage) : Prop :=
  getItem (DokanWishlist.key this) ls =
    Some (Document (JSON_stringify (DokanWishlist.items this))) ∨
  (getItem (DokanWishlist.key this) ls = None ∧ DokanWishlist.items this = []).

(** Entries and calls whose prices a JSON numeral reproduces. *)
Definition wishlist_exact_prices (l : list DokanWishlist.WishlistEntry) : Prop :=
  Forall (λ item, exact_value (DokanWishlist.price item)) l.

Definition wishlist_adds_exact_price (c : wishlist_call) : Prop :=
  match c with
  | WAdd _ _ p _ _ => exact_value p
  | WRemove _ => True
  end.

(** ** The scenario of the specification, and sample data *)

Definition empty_cart : DokanCart.t :=
  {| DokanCart.key := "dokan_cart"; DokanCart.items := [] |}.

Definition empty_wishlist : DokanWishlist.t :=
  {| DokanWishlist.key := "dokan_wishlist"; DokanWishlist.items := [] |}.

Definition scenario_cart : DokanCart.t :=
  (run [Add (Val "p1") (Val "Widget") (Val 9.99%float) (Val 1%float) Undefined
            "2024-01-01T00:00:00.000Z";
        Add (Val "p1") (Val "Widget") (Val 9.99%float) (Val 2%float) Undefined
            "2024-01-01T00:00:01.000Z"]
       (empty_cart, ∅)).1.

(** A row with the given id, name, price and quantity. *)
Definition row (pid name : string) (p q : number) (at' : string)
    : DokanCart.LineItem :=
  {| DokanCart.productId := Val pid; DokanCart.productName := Val name;
     DokanCart.price := Val p; DokanCart.quantity := Val q;
     DokanCart.image := Val ""; DokanCart.addedAt := Val at' |}.

(** A cart with two rows, for trying the statements on. *)
Definition sample_cart : DokanCart.t :=
  {| DokanCart.key := "dokan_cart";
     DokanCart.items :=
       [row "p1" "Widget" 9.99%float 3%float "t1";
        row "p2" "Gadget" 5%float 2%float "t2"] |}.

(** A wishlist with one entry. *)
Definition sample_wishlist : DokanWishlist.t :=
  {| DokanWishlist.key := "dokan_wishlist";
     DokanWishlist.items :=
       [{| DokanWishlist.productId := Val "p7";
           DokanWishlist.productName := Val "Lamp";
           DokanWishlist.price := Val 12.5%float;
           DokanWishlist.image := Val "";
           DokanWishlist.addedAt := Val "t1" |}] |}.


(** A cart whose quantities are at the edge of the integers binary64
    holds exactly: [2^53], 1 and 1. *)
Definition huge_cart : DokanCart.t :=
  {| DokanCart.key := "dokan_cart";
     DokanCart.items :=
       [row "p1" "Widget" 1%float 9007199254740992%float "t1";
        row "p2" "Gadget" 1%float 1%float "t2";
        row "p3" "Gizmo" 1%float 1%float "t3"] |}.

(** A page with a plain element, an add-to-cart button and an icon inside
    the button. *)
Definition plain_element : Element :=
  {| classList := ["container"]; data_productId := Undefined;
     data_productName := Undefined; data_price := nan; data_image := Undefined |}.

Definition widget_button : Element :=
  {| classList := ["btn"; "add-to-cart"]; data_productId := Val "p1";
     data_productName := Val "Widget"; data_price := 9.99%float;
     data_image := Undefined |}.

Definition icon_in_button : ClickEvent :=
  {| target := {| classList := ["bi"; "bi-cart"]; data_productId := Undefined;
                  data_productName := Undefined; data_price := nan;
                  data_image := Undefined |};
     ancestors := [widget_button; plain_element] |}.

(** ** Integers in binary64 *)

(** The integer a number is, when it is one. *)
Definition integer_value (x : number) : option Z :=
  match Prim2SF x with
  | S754_zero _ => Some 0
  | S754_finite s m e =>
      if 0 <=? e then Some (cond_Zopp s (Zpos m * 2 ^ e))
      else if Zpos m mod 2 ^ (- e) =? 0
           then Some (cond_Zopp s (Zpos m / 2 ^ (- e)))
           else None
  | _ => None
  end.

(** The specification-level binary64 value of an integer, and the
    53-bit mantissa of a positive integer below [2^53]. *)
Definition Z2SF (z : Z) : spec_float := binary_normalize prec emax z 0 false.

Definition canon (c : positive) : positive :=
  Z.to_pos (Zpos c * 2 ^ (53 - Zpos (digits2_pos c))).

(** * Binary64 arithmetic on integers

    Integers below [2^53] in magnitude are binary64 values, and binary64
    addition, multiplication and comparison on them are the integer ones
    as long as the result stays below [2^53].  The proofs go through the
    specification of the operations ([SpecFloat]): such an integer has a
    canonical 53-bit mantissa, and rounding a mantissa that stands for such
    an integer only shifts it. *)

Section binary64_integers.

Lemma digits2_log2 (p : positive) : Zpos (digits2_pos p) = Z.succ (Z.log2 (Zpos p)).
Proof.
  assert (H : forall q, digits2_pos q = Pos.size q) by (induction q; simpl; congruence).
  destruct p; simpl; rewrite ?H; lia.
Qed.

Lemma digits2_shift (c m : positive) k :
  0 <= k -> Zpos m = Zpos c * 2 ^ k ->
  Zpos (digits2_pos m) = Zpos (digits2_pos c) + k.
Proof.
  intros Hk Hm. rewrite !digits2_log2, Hm, Z.log2_mul_pow2 by lia. lia.
Qed.

Lemma digits2_safe (c : positive) : Zpos c < 2 ^ 53 -> 1 <= Zpos (digits2_pos c) <= 53.
Proof.
  intros Hc. rewrite digits2_log2.
  pose proof (Z.log2_nonneg (Zpos c)).
  assert (Z.log2 (Zpos c) < 53) by (apply Z.log2_lt_pow2; lia). lia.
Qed.

Lemma canon_spec (c : positive) :
  Zpos c < 2 ^ 53 -> Zpos (canon c) = Zpos c * 2 ^ (53 - Zpos (digits2_pos c)).
Proof.
  intros Hc. unfold canon. pose proof (digits2_safe c Hc).
  rewrite Z2Pos.id; [done|]. 
  apply Z.mul_pos_pos; [lia|]. apply Z.pow_pos_nonneg; lia.
Qed.

Lemma pos_iter_xO (m : positive) (j : positive) :
  Zpos (Pos.iter xO m j) = Zpos m * 2 ^ Zpos j.
Proof.
  induction j as [|j IH] using Pos.peano_ind.
  - simpl. lia.
  - rewrite Pos.iter_succ, Pos2Z.inj_xO, IH, Pos2Z.inj_succ, Z.pow_succ_r by lia. lia.
Qed.

Lemma iter_pos_iter {A} (f : A -> A) (p : positive) (x : A) :
  SpecFloat.iter_pos f p x = Pos.iter f x p.
Proof.
  revert x. induction p as [p IH|p IH|]; intros x; simpl.
  - rewrite !IH. by rewrite <- !Pos.iter_swap.
  - by rewrite !IH.
  - done.
Qed.

Lemma shr_exact (j : positive) (m : Z) :
  0 < m ->
  SpecFloat.iter_pos shr_1 j {| shr_m := m * 2 ^ Zpos j; shr_r := false; shr_s := false |} =
  {| shr_m := m; shr_r := false; shr_s := false |}.
Proof.
  rewrite iter_pos_iter. revert m.
  induction j as [|j IH] using Pos.peano_ind; intros m Hm.
  - simpl. destruct m as [|p|p]; try lia. by replace (Z.pos p * 2 ^ 1) with (Zpos p~0) by lia.
  - rewrite Pos.iter_succ, Pos2Z.inj_succ, Z.pow_succ_r by lia.
    replace (m * (2 * 2 ^ Zpos j)) with ((2 * m) * 2 ^ Zpos j) by lia.
    rewrite IH by lia. destruct m as [|p|p]; try lia. done.
Qed.

Lemma fexp_small (e : Z) : -1000 <= e -> fexp prec emax e = e - 53.
Proof. unfold fexp, emin, prec, emax. lia. Qed.

(** Rounding a mantissa that is already in canonical form leaves it alone. *)
Lemma binary_round_aux_canonical s (m M : positive) (e t : Z) :
  shr_fexp prec emax (Zpos m) e loc_Exact =
    ({| shr_m := Zpos M; shr_r := false; shr_s := false |}, t) ->
  Zpos (digits2_pos M) = 53 -> -1000 <= t <= 900 ->
  binary_round_aux prec emax s (Zpos m) e loc_Exact = S754_finite s M t.
Proof.
  intros Hshr HM Ht. unfold binary_round_aux. rewrite Hshr. simpl.
  unfold shr_fexp. simpl Zdigits2. rewrite HM, fexp_small by lia.
  replace (53 + t - 53 - t) with 0 by lia. simpl.
  replace (t <=? emax - prec) with true; [done|].
  symmetry. apply Z.leb_le. unfold emax, prec. lia.
Qed.

Lemma binary_round_canonical s (c m : positive) (k : Z) :
  0 <= k <= 900 -> Zpos c < 2 ^ 53 -> Zpos m = Zpos c * 2 ^ k ->
  binary_round prec emax s m (- k) =
  S754_finite s (canon c) (Zpos (digits2_pos c) - 53).
Proof.
  intros Hk Hc Hm.
  pose proof (digits2_safe c Hc) as Hd.
  pose proof (digits2_shift c m k ltac:(lia) Hm) as Hdm.
  pose proof (canon_spec c Hc) as Hcanon.
  assert (Hdcanon : Zpos (digits2_pos (canon c)) = 53).
  { rewrite (digits2_shift c (canon c) (53 - Zpos (digits2_pos c))); [lia|lia|done]. }
  set (d := Zpos (digits2_pos c)) in *.
  unfold binary_round. rewrite Hdm, fexp_small by lia.
  replace (d + k + - k - 53) with (d - 53) by lia.
  unfold shl_align.
  destruct (d - 53 - - k) as [|j|j] eqn:Hj.
  - (* already aligned *)
    assert (m = canon c) as -> by (apply Pos2Z.inj; rewrite Hm, Hcanon; f_equal; f_equal; lia).
    replace (- k) with (d - 53) by lia.
    apply binary_round_aux_canonical; [|done|lia].
    unfold shr_fexp. simpl Zdigits2. rewrite Hdcanon, fexp_small by lia.
    by replace (53 + (d - 53) - 53 - (d - 53)) with 0 by lia.
  - (* the sum has to be shifted right, exactly *)
    apply binary_round_aux_canonical; [|done|lia].
    unfold shr_fexp. simpl Zdigits2. rewrite Hdm, fexp_small by lia.
    replace (d + k + - k - 53 - - k) with (Zpos j) by lia.
    unfold shr. simpl shr_record_of_loc.
    replace (Zpos m) with (Zpos (canon c) * 2 ^ Zpos j).
    + rewrite shr_exact by lia. f_equal. lia.
    + rewrite Hm, Hcanon, <- Z.mul_assoc, <- Z.pow_add_r by lia. f_equal. f_equal. lia.
  - (* the mantissa is shifted left *)
    assert (Pos.iter xO m j = canon c) as ->.
    { apply Pos2Z.inj. rewrite pos_iter_xO, Hm, Hcanon, <- Z.mul_assoc, <- Z.pow_add_r by lia.
      f_equal. f_equal. lia. }
    apply binary_round_aux_canonical; [|done|lia].
    unfold shr_fexp. simpl Zdigits2. rewrite Hdcanon, fexp_small by lia.
    by replace (53 + (d - 53) - 53 - (d - 53)) with 0 by lia.
Qed.

Lemma binary_normalize_shifted (n : Z) (k : Z) :
  0 <= k <= 900 -> safe n ->
  binary_normalize prec emax (n * 2 ^ k) (- k) false = Z2SF n.
Proof.
  intros Hk [Hlo Hhi]. unfold Z2SF.
  assert (H2k : 0 < 2 ^ k) by (apply Z.pow_pos_nonneg; lia).
  destruct n as [|c|c].
  - done.
  - destruct (Zpos c * 2 ^ k) as [|m|m] eqn:Hm; try lia.
    unfold binary_normalize.
    rewrite (binary_round_canonical false c m k) by (done || lia).
    change 0 with (- 0).
    rewrite (binary_round_canonical false c c 0) by lia. done.
  - destruct (Zneg c * 2 ^ k) as [|m|m] eqn:Hm; try lia.
    unfold binary_normalize.
    rewrite (binary_round_canonical true c m k) by lia.
    change 0 with (- 0).
    rewrite (binary_round_canonical true c c 0) by lia. done.
Qed.

Lemma Z2SF_pos (c : positive) :
  Zpos c < 2 ^ 53 ->
  Z2SF (Zpos c) = S754_finite false (canon c) (Zpos (digits2_pos c) - 53).
Proof.
  intros Hc. unfold Z2SF, binary_normalize. change 0 with (- 0).
  apply binary_round_canonical; lia.
Qed.

Lemma Z2SF_neg (c : positive) :
  Zpos c < 2 ^ 53 ->
  Z2SF (Zneg c) = S754_finite true (canon c) (Zpos (digits2_pos c) - 53).
Proof.
  intros Hc. unfold Z2SF, binary_normalize. change 0 with (- 0).
  apply binary_round_canonical; lia.
Qed.

Lemma Z2SF_valid (n : Z) : safe n -> valid_binary (Z2SF n) = true.
Proof.
  intros [Hlo Hhi]. destruct n as [|c|c]; [done| |].
  - rewrite Z2SF_pos by lia. simpl. unfold bounded, canonical_mantissa.
    pose proof (digits2_safe c ltac:(lia)) as Hd.
    rewrite (digits2_shift c (canon c) (53 - Zpos (digits2_pos c)))
      by (lia || apply canon_spec; lia).
    rewrite fexp_small by lia. apply andb_true_intro. split.
    + apply Z.eqb_eq. lia.
    + apply Z.leb_le. unfold emax, prec. lia.
  - rewrite Z2SF_neg by lia. simpl. unfold bounded, canonical_mantissa.
    pose proof (digits2_safe c ltac:(lia)) as Hd.
    rewrite (digits2_shift c (canon c) (53 - Zpos (digits2_pos c)))
      by (lia || apply canon_spec; lia).
    rewrite fexp_small by lia. apply andb_true_intro. split.
    + apply Z.eqb_eq. lia.
    + apply Z.leb_le. unfold emax, prec. lia.
Qed.

Lemma Prim2SF_number_of_Z (n : Z) : safe n -> Prim2SF (number_of_Z n) = Z2SF n.
Proof. intros Hn. unfold number_of_Z. apply Prim2SF_SF2Prim. by apply Z2SF_valid. Qed.

Lemma shl_align_value (mx : positive) (ex ez : Z) :
  ez <= ex -> Zpos (fst (shl_align mx ex ez)) = Zpos mx * 2 ^ (ex - ez).
Proof.
  intros Hle. unfold shl_align.
  destruct (ez - ex) as [|j|j] eqn:Hj; simpl.
  - replace (ex - ez) with 0 by lia. lia.
  - lia.
  - rewrite pos_iter_xO. f_equal. f_equal. lia.
Qed.

(** The integer a canonical float stands for. *)
Lemma canon_value (c : positive) (ez : Z) :
  Zpos c < 2 ^ 53 -> ez <= Zpos (digits2_pos c) - 53 ->
  Zpos (canon c) * 2 ^ (Zpos (digits2_pos c) - 53 - ez) = Zpos c * 2 ^ (- ez).
Proof.
  intros Hc Hez. pose proof (digits2_safe c Hc).
  rewrite canon_spec, <- Z.mul_assoc, <- Z.pow_add_r by lia. f_equal. f_equal. lia.
Qed.

Lemma SFadd_zero_l (b : Z) : safe b -> SFadd prec emax (Z2SF 0) (Z2SF b) = Z2SF b.
Proof.
  intros [??]. destruct b as [|cb|cb]; [done| |].
  - rewrite Z2SF_pos by lia. done.
  - rewrite Z2SF_neg by lia. done.
Qed.

Lemma SFadd_zero_r (a : Z) : safe a -> SFadd prec emax (Z2SF a) (Z2SF 0) = Z2SF a.
Proof.
  intros [??]. destruct a as [|ca|ca]; [done| |].
  - rewrite Z2SF_pos by lia. done.
  - rewrite Z2SF_neg by lia. done.
Qed.

Lemma SFadd_finite (sa sb : bool) (ca cb : positive) :
  Zpos ca < 2 ^ 53 -> Zpos cb < 2 ^ 53 ->
  safe (cond_Zopp sa (Zpos ca) + cond_Zopp sb (Zpos cb)) ->
  SFadd prec emax
    (S754_finite sa (canon ca) (Zpos (digits2_pos ca) - 53))
    (S754_finite sb (canon cb) (Zpos (digits2_pos cb) - 53)) =
  Z2SF (cond_Zopp sa (Zpos ca) + cond_Zopp sb (Zpos cb)).
Proof.
  intros Ha Hb Hab.
  pose proof (digits2_safe ca Ha) as Hda. pose proof (digits2_safe cb Hb) as Hdb.
  unfold SFadd.
  set (ez := Z.min (Zpos (digits2_pos ca) - 53) (Zpos (digits2_pos cb) - 53)).
  rewrite !shl_align_value by lia. rewrite !canon_value by lia.
  replace (cond_Zopp sa (Zpos ca * 2 ^ (- ez)) + cond_Zopp sb (Zpos cb * 2 ^ (- ez)))
    with ((cond_Zopp sa (Zpos ca) + cond_Zopp sb (Zpos cb)) * 2 ^ (- ez))
    by (destruct sa, sb; unfold cond_Zopp; lia).
  replace ez with (- - ez) at 2 by lia.
  apply binary_normalize_shifted; [lia|done].
Qed.

Lemma SFadd_integers (a b : Z) :
  safe a -> safe b -> safe (a + b) ->
  SFadd prec emax (Z2SF a) (Z2SF b) = Z2SF (a + b).
Proof.
  intros Ha Hb Hab.
  destruct a as [|ca|ca]; [by apply SFadd_zero_l| |];
  (destruct b as [|cb|cb]; [rewrite Z.add_0_r; by apply SFadd_zero_r| |]);
  destruct Ha, Hb;
  rewrite ?(Z2SF_pos ca), ?(Z2SF_neg ca), ?(Z2SF_pos cb), ?(Z2SF_neg cb) by lia.
  - apply (SFadd_finite false false ca cb); [lia|lia|exact Hab].
  - apply (SFadd_finite false true ca cb); [lia|lia|exact Hab].
  - apply (SFadd_finite true false ca cb); [lia|lia|exact Hab].
  - apply (SFadd_finite true true ca cb); [lia|lia|exact Hab].
Qed.

Lemma add_integers (a b : Z) :
  safe a -> safe b -> safe (a + b) ->
  (number_of_Z a + number_of_Z b)%float = number_of_Z (a + b).
Proof.
  intros Ha Hb Hab. apply Prim2SF_inj.
  rewrite add_spec, !Prim2SF_number_of_Z by done. by apply SFadd_integers.
Qed.

Lemma SFmul_finite (ca cb : positive) :
  Zpos ca * Zpos cb < 2 ^ 53 ->
  SFmul prec emax
    (S754_finite false (canon ca) (Zpos (digits2_pos ca) - 53))
    (S754_finite false (canon cb) (Zpos (digits2_pos cb) - 53)) =
  S754_finite false (canon (ca * cb)) (Zpos (digits2_pos (ca * cb)) - 53).
Proof.
  intros Hc.
  assert (Ha : Zpos ca < 2 ^ 53) by nia. assert (Hb : Zpos cb < 2 ^ 53) by nia.
  assert (Hc' : Zpos (ca * cb) < 2 ^ 53) by (by rewrite Pos2Z.inj_mul).
  pose proof (digits2_safe ca Ha) as Hda. pose proof (digits2_safe cb Hb) as Hdb.
  pose proof (digits2_safe (ca * cb) Hc') as Hdc.
  pose proof (canon_spec ca Ha) as Hca. pose proof (canon_spec cb Hb) as Hcb.
  pose proof (canon_spec (ca * cb) Hc') as Hcc.
  assert (Hlog : Zpos (digits2_pos ca) + Zpos (digits2_pos cb) - 1 <=
                 Zpos (digits2_pos (ca * cb))).
  { rewrite !digits2_log2, Pos2Z.inj_mul.
    pose proof (Z.log2_mul_below (Zpos ca) (Zpos cb)). lia. }
  assert (Hdcanon : Zpos (digits2_pos (canon (ca * cb))) = 53).
  { rewrite (digits2_shift (ca * cb) (canon (ca * cb))
               (53 - Zpos (digits2_pos (ca * cb)))); [lia|lia|done]. }
  set (da := Zpos (digits2_pos ca)) in *. set (db := Zpos (digits2_pos cb)) in *.
  set (dc := Zpos (digits2_pos (ca * cb))) in *.
  assert (Hm : Zpos (canon ca * canon cb) = Zpos (ca * cb) * 2 ^ (106 - da - db)).
  { rewrite !Pos2Z.inj_mul, Hca, Hcb.
    replace (106 - da - db) with ((53 - da) + (53 - db)) by lia.
    rewrite Z.pow_add_r by lia. lia. }
  pose proof (digits2_shift (ca * cb) (canon ca * canon cb) (106 - da - db)
                ltac:(lia) Hm) as Hdm.
  fold dc in Hdm.
  unfold SFmul. cbn [xorb].
  apply binary_round_aux_canonical; [|done|lia].
  unfold shr_fexp. simpl Zdigits2. rewrite Hdm, fexp_small by lia.
  destruct (dc + (106 - da - db) + (da - 53 + (db - 53)) - 53 - (da - 53 + (db - 53)))
    as [|j|j] eqn:Hj; try lia.
  unfold shr. simpl shr_record_of_loc.
  replace (Zpos (canon ca * canon cb)) with (Zpos (canon (ca * cb)) * 2 ^ Zpos j).
  - rewrite shr_exact by lia. f_equal. lia.
  - rewrite Hm, Hcc, <- Z.mul_assoc, <- Z.pow_add_r by lia. f_equal. f_equal. lia.
Qed.

Lemma SFmul_integers (a b : Z) :
  0 <= a < 2 ^ 53 -> 0 <= b < 2 ^ 53 -> a * b < 2 ^ 53 ->
  SFmul prec emax (Z2SF a) (Z2SF b) = Z2SF (a * b).
Proof.
  intros Ha Hb Hab.
  destruct a as [|ca|ca]; [|destruct b as [|cb|cb]|]; try lia.
  - destruct b as [|cb|cb]; [done| |lia]. rewrite Z2SF_pos by lia. done.
  - rewrite Z2SF_pos by lia. done.
  - rewrite (Z2SF_pos ca), (Z2SF_pos cb) by lia.
    change (Zpos ca * Zpos cb) with (Zpos (ca * cb)).
    rewrite Z2SF_pos by (rewrite Pos2Z.inj_mul; lia).
    by apply SFmul_finite.
Qed.

(** Binary64 multiplication of non-negative integers is the integer one
    while the product is below [2^53]. *)
Lemma mul_integers (a b : Z) :
  0 <= a < 2 ^ 53 -> 0 <= b < 2 ^ 53 -> a * b < 2 ^ 53 ->
  (number_of_Z a * number_of_Z b)%float = number_of_Z (a * b).
Proof.
  intros Ha Hb Hab. apply Prim2SF_inj.
  rewrite mul_spec, !Prim2SF_number_of_Z by (unfold safe; nia).
  by apply SFmul_integers.
Qed.

Lemma leb_zero_integer (n : Z) :
  safe n -> (number_of_Z n <=? 0)%float = (n <=? 0)%Z.
Proof.
  intros Hn. rewrite leb_spec, Prim2SF_number_of_Z by done.
  change (Prim2SF 0%float) with (S754_zero false).
  destruct Hn. destruct n as [|c|c]; [done| |].
  - rewrite Z2SF_pos by lia. done.
  - rewrite Z2SF_neg by lia. done.
Qed.

Lemma digits2_one (c : positive) : Zpos (digits2_pos c) = 1 -> c = 1%positive.
Proof. destruct c; simpl; lia. Qed.

Lemma one_leb_integer (n : Z) :
  safe n -> (1 <=? number_of_Z n)%float = (1 <=? n)%Z.
Proof.
  intros Hn. rewrite leb_spec, Prim2SF_number_of_Z by done.
  change (Prim2SF 1%float) with (S754_finite false 4503599627370496 (-52)).
  destruct Hn. destruct n as [|c|c]; [done| |].
  - rewrite Z2SF_pos by lia. pose proof (digits2_safe c ltac:(lia)) as Hd.
    replace (1 <=? Z.pos c) with true by (symmetry; apply Z.leb_le; lia).
    unfold SFleb, SFcompare.
    destruct (Z.compare_spec (-52) (Zpos (digits2_pos c) - 53)) as [Heq|Hlt|Hgt].
    + assert (c = 1%positive) as -> by (apply digits2_one; lia). done.
    + done.
    + lia.
  - rewrite Z2SF_neg by lia. done.
Qed.


Lemma add_zero_integer (n : Z) : safe n -> (0 + number_of_Z n)%float = number_of_Z n.
Proof.
  intros Hn. change 0%float with (number_of_Z 0).
  rewrite add_integers; [done| |done|done]. unfold safe. lia.
Qed.

Lemma integer_value_of_Z (n : Z) : safe n -> integer_value (number_of_Z n) = Some n.
Proof.
  intros Hn. unfold integer_value. rewrite Prim2SF_number_of_Z by done.
  destruct Hn. destruct n as [|c|c]; [done| |].
  - rewrite Z2SF_pos by lia. pose proof (digits2_safe c ltac:(lia)) as Hd.
    pose proof (canon_spec c ltac:(lia)) as Hcanon.
    destruct (Z.leb_spec 0 (Zpos (digits2_pos c) - 53)).
    + simpl. f_equal. rewrite Hcanon.
      replace (53 - Zpos (digits2_pos c)) with 0 by lia.
      replace (Zpos (digits2_pos c) - 53) with 0 by lia. lia.
    + replace (- (Zpos (digits2_pos c) - 53)) with (53 - Zpos (digits2_pos c)) by lia.
      rewrite Hcanon, Z.mod_mul, Z.div_mul by (apply Z.pow_nonzero; lia). done.
  - rewrite Z2SF_neg by lia. pose proof (digits2_safe c ltac:(lia)) as Hd.
    pose proof (canon_spec c ltac:(lia)) as Hcanon.
    destruct (Z.leb_spec 0 (Zpos (digits2_pos c) - 53)).
    + simpl. f_equal. rewrite Hcanon.
      replace (53 - Zpos (digits2_pos c)) with 0 by lia.
      replace (Zpos (digits2_pos c) - 53) with 0 by lia. lia.
    + replace (- (Zpos (digits2_pos c) - 53)) with (53 - Zpos (digits2_pos c)) by lia.
      rewrite Hcanon, Z.mod_mul, Z.div_mul by (apply Z.pow_nonzero; lia). done.
Qed.

Lemma number_of_Z_0 : number_of_Z 0 = 0%float.
Proof. reflexivity. Qed.

Lemma number_of_Z_1 : number_of_Z 1 = 1%float.
Proof. reflexivity. Qed.

(** [NaN] absorbs binary64 multiplication and addition. *)
Lemma nan_mul_l (y : number) : (nan * y)%float = nan.
Proof. apply Prim2SF_inj. rewrite mul_spec. reflexivity. Qed.

Lemma nan_add_l (y : number) : (nan + y)%float = nan.
Proof. apply Prim2SF_inj. rewrite add_spec. reflexivity. Qed.

Lemma nan_add_r (x : number) : (x + nan)%float = nan.
Proof.
  apply Prim2SF_inj. rewrite add_spec.
  change (Prim2SF nan) with S754_nan. by destruct (Prim2SF x).
Qed.

End binary64_integers.

(** * The cart *)

(** ** Lookup by product id *)

Section cart_lookup.
Import DokanCart.
Implicit Types (l : list LineItem) (pid : value string).

Lemma cart_find_absent pid l :
  pid ∉ productId <$> l ↔ list_find (λ item, productId item = pid) l = None.
Proof.
  rewrite list_find_None, Forall_forall, list_elem_of_fmap. split.
  - intros Hn item Hin Heq. apply Hn. by exists item.
  - intros Hall (item & -> & Hin). by apply (Hall item).
Qed.

Lemma cart_find_present pid l :
  pid ∈ productId <$> l →
  ∃ i item, list_find (λ item, productId item = pid) l = Some (i, item).
Proof.
  intros (item & -> & Hin)%list_elem_of_fmap.
  destruct (list_find_elem_of (λ it, productId it = productId item) l item)
    as [[i it] Hfind]; eauto.
Qed.

Lemma cart_find_Some pid l i item :
  list_find (λ item, productId item = pid) l = Some (i, item) →
  l !! i = Some item ∧ productId item = pid.
Proof. intros (? & ? & _)%list_find_Some. done. Qed.

Lemma ids_insert_quantity l i item q :
  l !! i = Some item →
  productId <$> <[i := with_quantity item q]> l = productId <$> l.
Proof.
  intros Hi. rewrite list_fmap_insert. apply list_insert_id.
  by rewrite list_lookup_fmap, Hi.
Qed.

End cart_lookup.

(** ** What [addToCart] and [updateQuantity] compute *)

Section cart_calls.
Import DokanCart.
Implicit Types (this : t) (ls : Storage) (pid : value string) (l : list LineItem).

Lemma saveCart_persisted this ls : persisted this (saveCart this ls).
Proof. unfold persisted, saveCart, getItem, setItem. apply lookup_insert_eq. Qed.

Lemma addToCart_found pid name p quantity' image' now this ls i existingItem :
  list_find (λ item, productId item = pid) (items this) = Some (i, existingItem) →
  addToCart pid name p quantity' image' now this ls =
    let this' :=
      with_items this
        (<[i := with_quantity existingItem
                  (Val (to_number (quantity existingItem) +
                        to_number (or_default 1%float quantity'))%float)]>
           (items this)) in
    (this', saveCart this' ls).
Proof. intros Hfind. unfold addToCart. by rewrite Hfind. Qed.

Lemma addToCart_not_found pid name p quantity' image' now this ls :
  pid ∉ productId <$> items this →
  addToCart pid name p quantity' image' now this ls =
    let this' :=
      with_items this
        (items this ++
           [{| productId := pid; productName := name; price := p;
               quantity := or_default 1%float quantity';
               image := or_default "" image'; addedAt := Val now |}]) in
    (this', saveCart this' ls).
Proof. intros Hfind%cart_find_absent. unfold addToCart. by rewrite Hfind. Qed.

Lemma find_after_append pid l (new : LineItem) :
  pid ∉ productId <$> l → productId new = pid →
  list_find (λ item, productId item = pid) (l ++ [new]) = Some (length l, new).
Proof.
  intros Hl%cart_find_absent Hnew.
  rewrite list_find_app_r by done. simpl.
  rewrite decide_True by done. simpl. done.
Qed.

Lemma filter_other_ids pid l :
  pid ∉ productId <$> l → filter (λ item, productId item = pid) l = [].
Proof.
  intros Hl. induction l as [|x l IH]; [done|].
  rewrite fmap_cons, not_elem_of_cons in Hl. destruct Hl as [Hx Hl].
  rewrite filter_cons_False by (intros ?; by apply Hx). by apply IH.
Qed.

Lemma filter_keeps_other_ids pid l :
  pid ∉ productId <$> l → filter (λ item, productId item ≠ pid) l = l.
Proof.
  intros Hl. induction l as [|x l IH]; [done|].
  rewrite fmap_cons, not_elem_of_cons in Hl. destruct Hl as [Hx Hl].
  rewrite filter_cons_True by (intros ?; by apply Hx). by rewrite IH.
Qed.

Lemma removed_id_is_gone pid l :
  pid ∉ productId <$> filter (λ item, productId item ≠ pid) l.
Proof.
  intros (item & -> & [Hne _]%list_elem_of_filter)%list_elem_of_fmap. by apply Hne.
Qed.

Lemma filter_insert_dropped pid l i (x y : LineItem) :
  l !! i = Some y → productId y = pid → productId x = pid →
  filter (λ item, productId item ≠ pid) (<[i := x]> l) =
  filter (λ item, productId item ≠ pid) l.
Proof.
  revert i. induction l as [|z l IH]; intros i Hi Hy Hx; [done|].
  destruct i as [|i]; simpl in *.
  - injection Hi as ->.
    rewrite !filter_cons_False; [done|intros Hne; by apply Hne..].
  - rewrite !filter_cons. by rewrite (IH i).
Qed.

Lemma updateQuantity_found pid q this ls i item :
  list_find (λ item, productId item = pid) (items this) = Some (i, item) →
  updateQuantity pid q this ls =
    if (to_number q <=? 0)%float
    then removeFromCart pid this ls
    else let this' :=
           with_items this (<[i := with_quantity item q]> (items this)) in
         (this', saveCart this' ls).
Proof.
  intros Hfind. unfold updateQuantity. rewrite Hfind. simpl.
  destruct (to_number q <=? 0)%float; [|done].
  apply cart_find_Some in Hfind as [Hi Hpid].
  unfold removeFromCart. simpl.
  by rewrite (filter_insert_dropped pid _ i _ item).
Qed.

Lemma updateQuantity_not_found pid q this ls :
  list_find (λ item, productId item = pid) (items this) = None →
  updateQuantity pid q this ls = (this, ls).
Proof. intros Hfind. unfold updateQuantity. by rewrite Hfind. Qed.

Lemma saveCart_twice this this' ls :
  key this = key this' → saveCart this (saveCart this' ls) = saveCart this ls.
Proof.
  intros Hkey. unfold saveCart, setItem. rewrite Hkey. apply insert_insert_eq.
Qed.

Lemma find_after_update pid l i (item x : LineItem) :
  list_find (λ item, productId item = pid) l = Some (i, item) →
  productId x = pid →
  list_find (λ item, productId item = pid) (<[i := x]> l) = Some (i, x).
Proof.
  intros (Hi & _ & Hfirst)%list_find_Some Hx.
  apply list_find_insert_Some. right. left.
  split_and!; [done|done|by eapply lookup_lt_Some|done|done].
Qed.

End cart_calls.

(** ** Adding to the cart *)

Section cart_add.
Import DokanCart.
Implicit Types (this : t) (ls : Storage) (pid : value string) (l : list LineItem).

(** C1, as stated, fails for large quantities: on the empty cart, adding
    a product with quantity [2^53] and adding it again with quantity 1
    leaves the one row with quantity [2^53], since the increment is a
    binary64 addition; the quantity is not [2^53 + 1]. *)
Lemma add_one_beyond_2_53_is_lost :
  integer_value 9007199254740992%float = Some (2 ^ 53) ∧
  integer_value 1%float = Some 1 ∧
  (integer_value ∘ to_number ∘ quantity) <$>
    items
      (run [Add (Val "p1") (Val "Widget") (Val 9.99%float)
                (Val 9007199254740992%float) Undefined "t1";
            Add (Val "p1") (Val "Widget") (Val 9.99%float)
                (Val 1%float) Undefined "t2"] (empty_cart, ∅)).1
  = [Some (2 ^ 53)] ∧
  2 ^ 53 ≠ 2 ^ 53 + 1.
Proof. split_and!; [vm_compute; reflexivity..|lia]. Qed.

(** C1, amended. Adding a product id that is absent appends one row
    carrying the given quantity; adding it a second time leaves that
    single row, its quantity being the binary64 sum of the two quantities
    (the cart has exactly one row for the id, not two).  When the two
    quantities are integers and they and their sum are below [2^53] in
    magnitude, that quantity is the integer sum.  More generally, adding
    an id that [find] locates at index [i] increases the quantity of that
    row by the given quantity, in binary64.  Every call writes the
    resulting items to storage. *)
Theorem addToCart_merges_rows this ls pid :
  (pid ∉ productId <$> items this →
   ∀ name1 p1 q1 image1 now1 name2 p2 q2 image2 now2,
     let new q :=
       {| productId := pid; productName := name1; price := p1; quantity := Val q;
          image := or_default "" image1; addedAt := Val now1 |} in
     let s1 := addToCart pid name1 p1 (Val q1) image1 now1 this ls in
     let s2 := addToCart pid name2 p2 (Val q2) image2 now2 s1.1 s1.2 in
     items s1.1 = items this ++ [new q1] ∧
     items s2.1 = items this ++ [new (q1 + q2)%float] ∧
     filter (λ item, productId item = pid) (items s2.1) = [new (q1 + q2)%float] ∧
     persisted s1.1 s1.2 ∧ persisted s2.1 s2.2 ∧
     (∀ n1 n2, q1 = number_of_Z n1 → q2 = number_of_Z n2 →
        safe n1 → safe n2 → safe (n1 + n2) →
        items s2.1 = items this ++ [new (number_of_Z (n1 + n2))] ∧
        integer_value (q1 + q2)%float = Some (n1 + n2))) ∧
  (∀ i existingItem,
     list_find (λ item, productId item = pid) (items this) = Some (i, existingItem) →
     ∀ name p q image' now,
       let s := addToCart pid name p (Val q) image' now this ls in
       items s.1 =
         <[i := with_quantity existingItem
                  (Val (to_number (quantity existingItem) + q)%float)]> (items this) ∧
       length (items s.1) = length (items this) ∧
       persisted s.1 s.2).
Proof.
  split.
  - intros Habsent name1 p1 q1 image1 now1 name2 p2 q2 image2 now2 new s1 s2.
    assert (Hs1 : s1 = (with_items this (items this ++ [new q1]),
                        saveCart (with_items this (items this ++ [new q1])) ls)).
    { subst s1. by rewrite addToCart_not_found. }
    assert (Hs2 : items s2.1 = items this ++ [new (q1 + q2)%float]).
    { subst s2. rewrite Hs1. cbn [fst snd].
      erewrite addToCart_found; last by apply find_after_append.
      cbn [fst snd items with_items].
      replace (length (items this)) with (length (items this) + 0)%nat by lia.
      by rewrite insert_app_r. }
    split_and!.
    + by rewrite Hs1.
    + done.
    + rewrite Hs2, filter_app, filter_other_ids by done.
      by rewrite filter_cons_True, filter_nil.
    + rewrite Hs1. apply saveCart_persisted.
    + subst s2. rewrite Hs1. cbn [fst snd].
      erewrite addToCart_found; last by apply find_after_append.
      apply saveCart_persisted.
    + intros n1 n2 -> -> Hn1 Hn2 Hsum. rewrite Hs2.
      rewrite add_integers by done. split; [done|].
      by apply integer_value_of_Z.
  - intros i existingItem Hfind name p q image' now s. subst s.
    rewrite (addToCart_found _ _ _ _ _ _ _ _ _ _ Hfind). simpl.
    split_and!; [done|by rewrite length_insert|apply saveCart_persisted].
Qed.

Lemma addToCart_merges_rows_witness :
  (Val "p1" ∉ productId <$> items empty_cart) ∧
  items (addToCart (Val "p1") (Val "Widget") (Val 9.99%float) (Val 2%float)
           Undefined "t2"
           (addToCart (Val "p1") (Val "Widget") (Val 9.99%float) (Val 1%float)
              Undefined "t1" empty_cart ∅).1
           (addToCart (Val "p1") (Val "Widget") (Val 9.99%float) (Val 1%float)
              Undefined "t1" empty_cart ∅).2).1 =
    [row "p1" "Widget" 9.99%float (1 + 2)%float "t1"] ∧
  list_find (λ item, productId item = Val "p2") (items sample_cart) =
    Some (1%nat, row "p2" "Gadget" 5%float 2%float "t2") ∧
  length (items (addToCart (Val "p2") (Val "Gadget") (Val 5%float) (Val 4%float)
                   Undefined "t3" sample_cart ∅).1) = 2%nat.
Proof.
  assert (H : Val "p1" ∉ productId <$> items empty_cart)
    by (simpl; apply not_elem_of_nil).
  split_and!; [exact H| |reflexivity|].
  - exact (proj1 (proj2 (proj1 (addToCart_merges_rows empty_cart ∅ (Val "p1")) H
             (Val "Widget") (Val 9.99%float) 1%float Undefined "t1"
             (Val "Widget") (Val 9.99%float) 2%float Undefined "t2"))).
  - exact (proj1 (proj2 (proj2 (addToCart_merges_rows sample_cart ∅ (Val "p2"))
             1%nat _ eq_refl (Val "Gadget") (Val 5%float) 4%float Undefined "t3"))).
Defined.

(** C8. When no row has the given product id, [addToCart] appends a row
    whose quantity is the argument itself, whatever number it is: no lower
    bound is applied, so a zero or negative quantity is stored as given. *)
Theorem addToCart_stores_any_quantity this ls pid name p (q : number) image' now :
  pid ∉ productId <$> items this →
  let s := addToCart pid name p (Val q) image' now this ls in
  items s.1 =
    items this ++
      [{| productId := pid; productName := name; price := p; quantity := Val q;
          image := or_default "" image'; addedAt := Val now |}] ∧
  persisted s.1 s.2.
Proof.
  intros Habsent s. subst s. rewrite addToCart_not_found by done. simpl.
  split; [done|apply saveCart_persisted].
Qed.

Lemma addToCart_stores_any_quantity_witness :
  (Val "p1" ∉ productId <$> items empty_cart) ∧
  items (addToCart (Val "p1") (Val "Widget") (Val 9.99%float) (Val (-2)%float)
           Undefined "t1" empty_cart ∅).1 =
    [row "p1" "Widget" 9.99%float (-2)%float "t1"].
Proof.
  assert (H : Val "p1" ∉ productId <$> items empty_cart)
    by (simpl; apply not_elem_of_nil).
  split; [exact H|].
  exact (proj1 (addToCart_stores_any_quantity empty_cart ∅ (Val "p1") (Val "Widget")
                  (Val 9.99%float) (-2)%float Undefined "t1" H)).
Defined.

End cart_add.

(** ** Totals *)

Section cart_totals.
Import DokanCart.
Implicit Types (this : t) (ls : Storage) (pid : value string) (l : list LineItem).

Lemma integer_total_nonneg l N : integer_total l N → 0 ≤ N.
Proof. induction 1; lia. Qed.

Lemma fold_integer_total l N (A : Z) :
  integer_total l N → 0 ≤ A → A + N < 2 ^ 53 →
  fold_left (λ total item, (total + to_number (quantity item))%float) l
    (number_of_Z A) = number_of_Z (A + N).
Proof.
  intros Hl. revert A. induction Hl as [|item l n N Hq Hn Hl IH]; intros A HA Hsum.
  - by rewrite Z.add_0_r.
  - pose proof (integer_total_nonneg _ _ Hl). simpl. rewrite Hq. simpl.
    rewrite add_integers by (unfold safe; lia).
    rewrite IH by lia. f_equal. lia.
Qed.

Lemma getTotalItems_integer this N :
  integer_total (items this) N → N < 2 ^ 53 → getTotalItems this = number_of_Z N.
Proof.
  intros Hl HN. unfold getTotalItems. rewrite <- number_of_Z_0.
  by rewrite (fold_integer_total _ N 0).
Qed.

Lemma integer_subtotal_nonneg l T : integer_subtotal l T → 0 ≤ T.
Proof. induction 1; nia. Qed.

Lemma fold_integer_subtotal l T (A : Z) :
  integer_subtotal l T → 0 ≤ A → A + T < 2 ^ 53 →
  fold_left
    (λ total item,
       (total + to_number (price item) * to_number (quantity item))%float) l
    (number_of_Z A) = number_of_Z (A + T).
Proof.
  intros Hl. revert A.
  induction Hl as [|item l p n T Hp Hq Hpb Hnb Hl IH]; intros A HA Hsum.
  - by rewrite Z.add_0_r.
  - pose proof (integer_subtotal_nonneg _ _ Hl).
    assert (0 ≤ p * n) by nia.
    simpl. rewrite Hp, Hq. simpl.
    rewrite mul_integers by lia.
    rewrite add_integers by (unfold safe; lia).
    rewrite IH by lia. f_equal. lia.
Qed.

Lemma getSubtotal_integer this T :
  integer_subtotal (items this) T → T < 2 ^ 53 → getSubtotal this = number_of_Z T.
Proof.
  intros Hl HT. unfold getSubtotal. rewrite <- number_of_Z_0.
  by rewrite (fold_integer_subtotal _ T 0).
Qed.

Lemma sum_in_order_snoc (xs : list number) (x : number) :
  sum_in_order (xs ++ [x]) = (sum_in_order xs + x)%float.
Proof. unfold sum_in_order. by rewrite rev_unit. Qed.

Lemma getTotalItems_snoc k l (x : LineItem) :
  getTotalItems {| key := k; items := l ++ [x] |} =
  (getTotalItems {| key := k; items := l |} + to_number (quantity x))%float.
Proof. unfold getTotalItems. simpl. by rewrite fold_left_app. Qed.

Lemma getSubtotal_snoc k l (x : LineItem) :
  getSubtotal {| key := k; items := l ++ [x] |} =
  (getSubtotal {| key := k; items := l |} + line_total x)%float.
Proof. unfold getSubtotal. simpl. by rewrite fold_left_app. Qed.

(** C5, as stated, fails for large quantities: the quantities of
    [huge_cart] are the integers [2^53], 1 and 1, and [getTotalItems]
    answers [2^53], not their sum; with the same rows in the opposite
    order it answers [2^53 + 2]. *)
Lemma total_beyond_2_53_is_rounded :
  (integer_value ∘ to_number ∘ quantity) <$> items huge_cart =
    [Some (2 ^ 53); Some 1; Some 1] ∧
  integer_value (getTotalItems huge_cart) = Some (2 ^ 53) ∧
  2 ^ 53 ≠ 2 ^ 53 + 1 + 1 ∧
  integer_value (getTotalItems (with_items huge_cart (rev (items huge_cart)))) =
    Some (2 ^ 53 + 2).
Proof. split_and!; [vm_compute; reflexivity..|lia|vm_compute; reflexivity]. Qed.

(** C5, amended. [getTotalItems] is the sum of the quantities of the rows
    and [getSubtotal] the sum of price times quantity over the rows, both
    added up in binary64 from zero in list order; on the empty collection
    both are zero.  When the quantities are non-negative integers whose
    sum is below [2^53], [getTotalItems] is that integer sum; when the
    prices are such integers as well and price times quantity adds up to
    less than [2^53], [getSubtotal] is that integer sum. *)
Theorem totals_are_sums this :
  getTotalItems this = sum_in_order ((λ item, to_number (quantity item)) <$> items this) ∧
  getSubtotal this = sum_in_order (line_total <$> items this) ∧
  getTotalItems (with_items this []) = 0%float ∧
  getSubtotal (with_items this []) = 0%float ∧
  (∀ N, integer_total (items this) N → N < 2 ^ 53 →
     getTotalItems this = number_of_Z N ∧
     integer_value (getTotalItems this) = Some N) ∧
  (∀ T, integer_subtotal (items this) T → T < 2 ^ 53 →
     getSubtotal this = number_of_Z T ∧
     integer_value (getSubtotal this) = Some T).
Proof.
  split_and!; [| |done|done| |].
  - destruct this as [k l]. simpl.
    induction l as [|x l IH] using rev_ind; [done|].
    rewrite getTotalItems_snoc, fmap_app.
    change ((λ item, to_number (quantity item)) <$> [x]) with [to_number (quantity x)].
    rewrite sum_in_order_snoc. by rewrite <- IH.
  - destruct this as [k l]. simpl.
    induction l as [|x l IH] using rev_ind; [done|].
    rewrite getSubtotal_snoc, fmap_app.
    change (line_total <$> [x]) with [line_total x].
    rewrite sum_in_order_snoc. by rewrite <- IH.
  - intros N Hl HN. pose proof (integer_total_nonneg _ _ Hl).
    rewrite (getTotalItems_integer this N) by done.
    split; [done|]. apply integer_value_of_Z. unfold safe. lia.
  - intros T Hl HT. pose proof (integer_subtotal_nonneg _ _ Hl).
    rewrite (getSubtotal_integer this T) by done.
    split; [done|]. apply integer_value_of_Z. unfold safe. lia.
Qed.

Lemma totals_are_sums_witness :
  integer_total (items sample_cart) (3 + (2 + 0)) ∧
  getTotalItems sample_cart = number_of_Z (3 + (2 + 0)).
Proof.
  assert (H : integer_total (items sample_cart) (3 + (2 + 0))).
  { repeat constructor; lia. }
  split; [exact H|].
  exact (proj1 (proj1 (proj2 (proj2 (proj2 (proj2 (totals_are_sums sample_cart)))))
           (3 + (2 + 0)) H ltac:(lia))).
Defined.

(** C7. Starting from an empty cart, [add("p1","Widget",9.99,1)] followed
    by [add("p1","Widget",9.99,2)] gives a total item count of 3 and a
    subtotal of 29.97, all arithmetic being binary64. *)
Theorem scenario_totals :
  DokanCart.getTotalItems scenario_cart = 3%float ∧
  DokanCart.getSubtotal scenario_cart = 29.97%float.
Proof. split; vm_compute; reflexivity. Qed.

End cart_totals.

(** ** Setting a quantity *)

Section cart_update.
Import DokanCart.
Implicit Types (this : t) (ls : Storage) (pid : value string) (l : list LineItem).

Lemma integer_total_split (P : LineItem → Prop) `{∀ x, Decision (P x)} l N :
  integer_total l N →
  ∃ R, 0 ≤ R ≤ N ∧ integer_total (filter P l) R ∧
       integer_total (filter (λ x, ¬ P x) l) (N - R).
Proof.
  induction 1 as [|item l n N Hq Hn Hl (R & HR & Hin & Hout)].
  - exists 0. split_and!; [lia..|constructor|constructor].
  - pose proof (integer_total_nonneg _ _ Hl).
    destruct (decide (P item)) as [HP|HP].
    + exists (n + R). rewrite filter_cons_True by done.
      rewrite filter_cons_False by (intros HnP; by apply HnP).
      split_and!; [lia..|by constructor|].
      by replace (n + N - (n + R)) with (N - R) by lia.
    + exists R. rewrite filter_cons_False by done. rewrite filter_cons_True by done.
      split_and!; [lia..|done|].
      replace (n + N - R) with (n + (N - R)) by lia. by constructor.
Qed.






(** C10. When no row has the given product id, [updateQuantity] changes
    nothing, whatever the quantity: the cart object is returned as it was
    and the storage is not written. *)
Theorem updateQuantity_absent_noop this ls pid (q : value number) :
  pid ∉ productId <$> items this →
  updateQuantity pid q this ls = (this, ls) ∧
  items (updateQuantity pid q this ls).1 = items this ∧
  (∀ k, getItem k (updateQuantity pid q this ls).2 = getItem k ls).
Proof.
  intros Habsent%cart_find_absent.
  by rewrite updateQuantity_not_found.
Qed.

Lemma updateQuantity_absent_noop_witness :
  (Val "p9" ∉ productId <$> items scenario_cart) ∧
  updateQuantity (Val "p9") (Val 5%float) scenario_cart ∅ = (scenario_cart, ∅).
Proof.
  assert (H : Val "p9" ∉ productId <$> items scenario_cart).
  { apply cart_find_absent. reflexivity. }
  split; [exact H|].
  exact (proj1 (updateQuantity_absent_noop scenario_cart ∅ (Val "p9") (Val 5%float) H)).
Defined.

(** C9. When the cart has a row with the given product id, [addToCart]
    changes the quantity of the row [find] returns, at its index [i], and
    nothing else: its name, price, image and timestamp stay as stored,
    whatever name, price and image the call passes, and every other row is
    the one it was.  The new quantity is the binary64 sum of the old one
    and the quantity passed (1 when none is passed), which is their sum as
    integers when both and the sum are integers below [2^53] in
    magnitude. *)
Theorem addToCart_frame this ls pid name p quantity' image' now :
  pid ∈ productId <$> items this →
  ∃ i existingItem updated,
    list_find (λ item, productId item = pid) (items this) = Some (i, existingItem) ∧
    let s := addToCart pid name p quantity' image' now this ls in
    items s.1 !! i = Some updated ∧
    productId updated = productId existingItem ∧
    productName updated = productName existingItem ∧
    price updated = price existingItem ∧
    image updated = image existingItem ∧
    addedAt updated = addedAt existingItem ∧
    quantity updated =
      Val (to_number (quantity existingItem) +
           to_number (or_default 1%float quantity'))%float ∧
    (∀ n m, quantity existingItem = Val (number_of_Z n) →
            or_default 1%float quantity' = Val (number_of_Z m) →
            safe n → safe m → safe (n + m) →
            quantity updated = Val (number_of_Z (n + m))) ∧
    (∀ j, j ≠ i → items s.1 !! j = items this !! j) ∧
    length (items s.1) = length (items this) ∧
    key s.1 = key this.
Proof.
  intros (i & existingItem & Hfind)%cart_find_present.
  exists i, existingItem,
    (with_quantity existingItem
       (Val (to_number (quantity existingItem) +
             to_number (or_default 1%float quantity'))%float)).
  split; [done|]. intros s. subst s.
  rewrite (addToCart_found _ _ _ _ _ _ _ _ _ _ Hfind).
  apply cart_find_Some in Hfind as [Hi _]. cbn [fst items with_items].
  split_and!; try done.
  - apply list_lookup_insert_eq. by eapply lookup_lt_Some.
  - intros n m Hn Hm ???. rewrite Hn, Hm. simpl. by rewrite add_integers.
  - intros j Hj. by apply list_lookup_insert_ne.
  - apply length_insert.
Qed.

Lemma addToCart_frame_witness :
  (Val "p1" ∈ productId <$> items sample_cart) ∧
  length (items (addToCart (Val "p1") (Val "Renamed") (Val 1%float) (Val 2%float)
                   (Val "other.png") "t3" sample_cart ∅).1) = 2%nat.
Proof.
  assert (Hin : Val "p1" ∈ productId <$> items sample_cart) by apply list_elem_of_here.
  split; [exact Hin|].
  destruct (addToCart_frame sample_cart ∅ (Val "p1") (Val "Renamed") (Val 1%float)
              (Val 2%float) (Val "other.png") "t3" Hin)
    as (i & existingItem & updated & _ & _ & _ & _ & _ & _ & _ & _ & _ & _ & Hlen & _).
  exact Hlen.
Defined.

End cart_update.

(** ** The data-model invariant *)

Section cart_invariant.
Import DokanCart.
Implicit Types (this : t) (ls : Storage) (pid : value string) (l : list LineItem).
Implicit Types (s : t * Storage) (c : cart_call) (cs : list cart_call).

Lemma unique_ids_filter pid l :
  unique_ids l → unique_ids (filter (λ item, productId item ≠ pid) l).
Proof.
  unfold unique_ids. intros Hnd. eapply sublist_NoDup; [exact Hnd|].
  apply fmap_sublist, sublist_filter.
Qed.

(** Case analysis on what [find] returns for a product id. *)
Tactic Notation "find_cases" constr(pid) constr(this)
    "as" ident(i) ident(item) ident(H) :=
  destruct (list_find (λ x, productId x = pid) (items this))
    as [[i item]|] eqn:H.


Lemma call_unique_ids c s :
  unique_ids (items s.1) → unique_ids (items (call c s).1).
Proof.
  destruct c as [pid name p q' img now|pid|pid q|], s as [this ls];
    cbn [call fst snd]; intros Hnd.
  - find_cases pid this as i item Hfind.
    + rewrite (addToCart_found _ _ _ _ _ _ _ _ _ _ Hfind). cbn [fst items with_items].
      apply cart_find_Some in Hfind as [Hi _].
      unfold unique_ids. by rewrite ids_insert_quantity.
    + apply cart_find_absent in Hfind.
      rewrite addToCart_not_found by done. cbn [fst items with_items].
      unfold unique_ids. rewrite fmap_app. apply NoDup_app.
      split_and!; [done| |apply NoDup_singleton].
      intros x Hx ->%list_elem_of_singleton. done.
  - by apply unique_ids_filter.
  - find_cases pid this as i item Hfind.
    + rewrite (updateQuantity_found _ _ _ _ _ _ Hfind).
      apply cart_find_Some in Hfind as [Hi _].
      destruct (to_number q <=? 0)%float; cbn [removeFromCart fst items with_items].
      * by apply unique_ids_filter.
      * unfold unique_ids. by rewrite ids_insert_quantity.
    + by rewrite updateQuantity_not_found.
  - apply NoDup_nil_2.
Qed.




Lemma quantities_within_mono B B' l :
  B ≤ B' → quantities_within B l → quantities_within B' l.
Proof.
  intros HB Hl. eapply Forall_impl; [exact Hl|].
  intros item (m & Hq & Hm). exists m. split; [done|lia].
Qed.

Lemma quantities_within_filter pid B l :
  quantities_within B l →
  quantities_within B (filter (λ item, productId item ≠ pid) l).
Proof.
  unfold quantities_within. rewrite !Forall_forall.
  intros Hall item [_ Hin]%list_elem_of_filter. by apply Hall.
Qed.

Lemma quantities_within_positive B l :
  B < 2 ^ 53 → quantities_within B l → quantities_positive l.
Proof.
  intros HB Hl. eapply Forall_impl; [exact Hl|].
  intros item (m & -> & Hm). simpl.
  rewrite one_leb_integer by (unfold safe; lia). apply Z.leb_le. lia.
Qed.

Lemma requested_nonneg (c : integer_call) : 0 ≤ requested c.
Proof. destruct c; simpl; lia. Qed.



Lemma default_quantity (n : option Z) :
  or_default 1%float (quantity_argument n) = Val (number_of_Z (default 1 n)).
Proof. by destruct n. Qed.

Lemma call_quantities_within (c : integer_call) s B :
  adds_at_least_one c → 0 ≤ B → B + requested c < 2 ^ 53 →
  quantities_within B (items s.1) →
  quantities_within (B + requested c) (items (call (cart_call_of c) s).1).
Proof.
  pose proof (requested_nonneg c) as Hreq.
  destruct c as [pid name p n img now|pid|pid n|], s as [this ls];
    cbn [call cart_call_of fst snd adds_at_least_one requested] in *;
    intros Hq HB Hbound Hrows.
  - find_cases pid this as i item Hfind.
    + rewrite (addToCart_found _ _ _ _ _ _ _ _ _ _ Hfind). cbn [fst items with_items].
      apply cart_find_Some in Hfind as [Hi _].
      apply Forall_insert; [by apply (quantities_within_mono B); [lia|]|].
      destruct (Forall_lookup_1 _ _ _ _ Hrows Hi) as (m & Hm & Hmb).
      exists (m + default 1 n). rewrite Hm, default_quantity. simpl.
      rewrite add_integers by (unfold safe; lia). split; [done|lia].
    + apply cart_find_absent in Hfind.
      rewrite addToCart_not_found by done. cbn [fst items with_items].
      apply Forall_app. split; [by apply (quantities_within_mono B); [lia|]|].
      apply Forall_singleton. exists (default 1 n). simpl.
      rewrite default_quantity. split; [done|lia].
  - apply quantities_within_filter. by apply (quantities_within_mono B); [lia|].
  - find_cases pid this as i item Hfind.
    + rewrite (updateQuantity_found _ _ _ _ _ _ Hfind). cbn [to_number].
      rewrite leb_zero_integer by (unfold safe; lia).
      destruct (Z.leb_spec n 0); cbn [removeFromCart fst items with_items].
      * apply quantities_within_filter. by apply (quantities_within_mono B); [lia|].
      * apply Forall_insert; [by apply (quantities_within_mono B); [lia|]|].
        exists n. split; [done|lia].
    + rewrite updateQuantity_not_found by done.
      by apply (quantities_within_mono B); [lia|].
  - apply Forall_nil_2.
Qed.





End cart_invariant.

(** * The wishlist *)

Section wishlist.
Import DokanWishlist.
Implicit Types (this : t) (ls : Storage) (pid : value string) (l : list WishlistEntry).

Lemma wishlist_find_absent pid l :
  pid ∉ productId <$> l ↔ list_find (λ item, productId item = pid) l = None.
Proof.
  rewrite list_find_None, Forall_forall, list_elem_of_fmap. split.
  - intros Hn item Hin Heq. apply Hn. by exists item.
  - intros Hall (item & -> & Hin). by apply (Hall item).
Qed.

Lemma wishlist_find_present pid l :
  pid ∈ productId <$> l → is_Some (list_find (λ item, productId item = pid) l).
Proof.
  intros (item & -> & Hin)%list_elem_of_fmap.
  by apply (list_find_elem_of _ l item).
Qed.

Lemma addToWishlist_present pid name p image' now this ls :
  pid ∈ productId <$> items this →
  addToWishlist pid name p image' now this ls = (false, this, ls).
Proof.
  intros [[i item] Hfind]%wishlist_find_present.
  unfold addToWishlist. by rewrite Hfind.
Qed.

Lemma addToWishlist_absent pid name p image' now this ls :
  pid ∉ productId <$> items this →
  addToWishlist pid name p image' now this ls =
    let this' :=
      with_items this
        (items this ++
           [{| productId := pid; productName := name; price := p;
               image := or_default "" image'; addedAt := Val now |}]) in
    (true, this', saveWishlist this' ls).
Proof.
  intros Hfind%wishlist_find_absent. unfold addToWishlist. by rewrite Hfind.
Qed.

Lemma addToWishlist_then_present pid name p image' now this ls :
  pid ∈ productId <$> items (addToWishlist pid name p image' now this ls).1.2.
Proof.
  destruct (decide (pid ∈ productId <$> items this)) as [Hin|Hout].
  - by rewrite addToWishlist_present.
  - rewrite addToWishlist_absent by done. cbn [fst snd items with_items].
    rewrite fmap_app. apply elem_of_app. right. simpl. apply list_elem_of_here.
Qed.

(** C3. [addToWishlist] returns [true] exactly when no entry has the given
    product id.  In that case it appends one entry and writes the entries
    to storage; otherwise it returns [false] and leaves the collection and
    the storage as they were.  Hence a second add of the same product id
    returns [false] and changes nothing, the size included. *)
Theorem addToWishlist_once this ls pid name p image' now :
  let r := addToWishlist pid name p image' now this ls in
  (r.1.1 = true ↔ pid ∉ productId <$> items this) ∧
  (pid ∉ productId <$> items this →
     items r.1.2 =
       items this ++
         [{| productId := pid; productName := name; price := p;
             image := or_default "" image'; addedAt := Val now |}] ∧
     getTotalItems r.1.2 = S (getTotalItems this) ∧
     getItem (key this) r.2 = Some (Document (JSON_stringify (items r.1.2)))) ∧
  (pid ∈ productId <$> items this → r = (false, this, ls)) ∧
  (∀ name2 p2 image2 now2,
     let r2 := addToWishlist pid name2 p2 image2 now2 r.1.2 r.2 in
     r2.1.1 = false ∧ r2.1.2 = r.1.2 ∧ r2.2 = r.2 ∧
     getTotalItems r2.1.2 = getTotalItems r.1.2).
Proof.
  intros r. split_and!.
  - subst r. destruct (decide (pid ∈ productId <$> items this)) as [Hin|Hout].
    + rewrite addToWishlist_present by done. simpl. split; [done|]. by intros [].
    + rewrite addToWishlist_absent by done. simpl. done.
  - intros Hout. subst r. rewrite addToWishlist_absent by done.
    cbn [fst snd items with_items]. split_and!.
    + done.
    + unfold getTotalItems. simpl. rewrite length_app. simpl. lia.
    + unfold saveWishlist, getItem, setItem. simpl. apply lookup_insert_eq.
  - intros Hin. subst r. by apply addToWishlist_present.
  - intros name2 p2 image2 now2 r2. subst r2.
    rewrite addToWishlist_present; [done|].
    subst r. apply addToWishlist_then_present.
Qed.

Lemma addToWishlist_once_witness :
  (Val "p7" ∈ productId <$> items sample_wishlist) ∧
  (Val "p8" ∉ productId <$> items sample_wishlist) ∧
  addToWishlist (Val "p7") (Val "Lamp") (Val 12.5%float) Undefined "t2"
    sample_wishlist ∅ = (false, sample_wishlist, ∅) ∧
  getTotalItems
    (addToWishlist (Val "p8") (Val "Desk") (Val 80%float) Undefined "t2"
       sample_wishlist ∅).1.2 = 2%nat.
Proof.
  assert (Hin : Val "p7" ∈ productId <$> items sample_wishlist)
    by apply list_elem_of_here.
  assert (Hout : Val "p8" ∉ productId <$> items sample_wishlist).
  { apply wishlist_find_absent. reflexivity. }
  split_and!; [exact Hin|exact Hout| |].
  - exact (proj1 (proj2 (proj2
             (addToWishlist_once sample_wishlist ∅ (Val "p7") (Val "Lamp")
                (Val 12.5%float) Undefined "t2"))) Hin).
  - exact (proj1 (proj2 (proj1 (proj2
             (addToWishlist_once sample_wishlist ∅ (Val "p8") (Val "Desk")
                (Val 80%float) Undefined "t2")) Hout))).
Defined.

End wishlist.

(** * Persist, then reload *)

Section round_trip.
Implicit Types (ls : Storage).

Lemma reload_number_exact (v : value number) :
  exact_value v → reload_number v = v.
Proof.
  destruct v as [| |x]; [done..|]. unfold exact_value, json_exact. simpl.
  intros [Hfin Hneg%negb_true_iff]%andb_true_iff. by rewrite Hfin, Hneg.
Qed.


Lemma WishlistEntry_of_to_json (item : DokanWishlist.WishlistEntry) :
  of_json (to_json item) = Some (reloaded_entry item).
Proof.
  unfold reloaded_entry.
  destruct item as [pid name p img at']. simpl.
  destruct pid as [| |pid], name as [| |name], p as [| |p],
           img as [| |img], at' as [| |at'];
    simpl; unfold json_of_number;
    repeat match goal with |- context [is_finite ?x] => destruct (is_finite x) end;
    reflexivity.
Qed.


Lemma reloaded_entry_exact (item : DokanWishlist.WishlistEntry) :
  exact_value (DokanWishlist.price item) → reloaded_entry item = item.
Proof.
  intros Hp. destruct item as [pid name p img at']. unfold reloaded_entry. simpl in *.
  by rewrite reload_number_exact.
Qed.

Lemma fmap_id_Forall {A} (f : A → A) (P : A → Prop) (l : list A) :
  (∀ x, P x → f x = x) → Forall P l → f <$> l = l.
Proof.
  intros Hf Hl. induction Hl as [|x l Hx Hl IH]; [done|].
  by rewrite fmap_cons, Hf, IH.
Qed.

Lemma parse_stringify `{Json A} (h : A → A) (l : list A) :
  Forall (λ item, of_json (to_json item) = Some (h item)) l →
  JSON_parse (JSON_stringify l) = Some (h <$> l).
Proof.
  intros Hall. unfold JSON_parse, JSON_stringify.
  induction Hall as [|x l Hx Hl IH]; [done|].
  rewrite !fmap_cons. simpl. rewrite Hx. simpl.
  fold (mapM of_json (to_json <$> l)). rewrite IH. done.
Qed.



(** Negative zero is written as [0] and comes back as positive zero. *)
Lemma negative_zero_price_reloads_as_zero :
  of_json (to_json (row "p1" "Widget" neg_zero 1%float "t1")) =
    Some (row "p1" "Widget" zero 1%float "t1") ∧
  zero ≠ neg_zero.
Proof.
  split; [reflexivity|].
  intros Heq.
  assert (Hbits : PrimFloat.Leibniz.eqb zero neg_zero = PrimFloat.Leibniz.eqb neg_zero neg_zero)
    by (by rewrite Heq).
  vm_compute in Hbits. discriminate.
Qed.




End round_trip.

(** * Further properties of the cart *)

(** ** Removing rows, and what the calls do to the total *)

Section cart_counts.
Import DokanCart.
Implicit Types (this : t) (ls : Storage) (pid : value string) (l : list LineItem).

Lemma filter_id_other pid pid' l :
  pid' ≠ pid →
  filter (λ item, productId item = pid') (filter (λ item, productId item ≠ pid) l) =
  filter (λ item, productId item = pid') l.
Proof.
  intros Hne. induction l as [|x l IH]; [done|].
  rewrite (filter_cons (λ item, productId item ≠ pid)).
  destruct (decide (productId x ≠ pid)) as [Hx|Hx].
  - rewrite !filter_cons. by rewrite IH.
  - rewrite IH. rewrite filter_cons_False; [done|].
    intros Heq. apply Hx. by rewrite Heq.
Qed.

Lemma integer_total_app l1 l2 N1 N2 :
  integer_total l1 N1 → integer_total l2 N2 → integer_total (l1 ++ l2) (N1 + N2).
Proof.
  induction 1 as [|item l n N Hq Hn Hl IH]; intros H2; [done|].
  simpl. replace (n + N + N2) with (n + (N + N2)) by lia. constructor; auto.
Qed.

Lemma integer_total_lookup l N i item :
  integer_total l N → l !! i = Some item →
  ∃ m, quantity item = Val (number_of_Z m) ∧ 0 ≤ m ≤ N ∧
       ∀ x m', quantity x = Val (number_of_Z m') → 0 ≤ m' →
               integer_total (<[i := x]> l) (N - m + m').
Proof.
  intros Hl. revert i. induction Hl as [|y l n N Hq Hn Hl IH]; intros i Hi; [done|].
  pose proof (integer_total_nonneg _ _ Hl).
  destruct i as [|i]; simpl in Hi.
  - injection Hi as ->. exists n. split_and!; [done|lia|lia|].
    intros x m' Hx Hm'. simpl.
    replace (n + N - n + m') with (m' + N) by lia. by constructor.
  - destruct (IH i Hi) as (m & Hm & Hmb & Hins).
    exists m. split_and!; [done|lia|lia|].
    intros x m' Hx Hm'. simpl.
    replace (n + N - m + m') with (n + (N - m + m')) by lia.
    constructor; [done|done|by apply Hins].
Qed.

(** [removeFromCart] leaves no row with the given product id, keeps the
    rows of every other id as they were and in their order, adds nothing,
    and writes the result to storage.  When the id is not in the cart the
    items stay as they are. *)
Theorem removeFromCart_drops_id this ls pid :
  (pid ∉ productId <$> items (removeFromCart pid this ls).1) ∧
  (∀ pid', pid' ≠ pid →
     filter (λ item, productId item = pid') (items (removeFromCart pid this ls).1) =
     filter (λ item, productId item = pid') (items this)) ∧
  items (removeFromCart pid this ls).1 `sublist_of` items this ∧
  (pid ∉ productId <$> items this →
     items (removeFromCart pid this ls).1 = items this) ∧
  persisted (removeFromCart pid this ls).1 (removeFromCart pid this ls).2.
Proof.
  unfold removeFromCart. cbn [fst snd items with_items]. split_and!.
  - apply removed_id_is_gone.
  - intros pid' Hne. by apply filter_id_other.
  - apply sublist_filter.
  - apply filter_keeps_other_ids.
  - apply saveCart_persisted.
Qed.

Lemma removeFromCart_drops_id_witness :
  (Val "p2" ≠ Val "p1") ∧
  filter (λ item, productId item = Val "p2")
    (items (removeFromCart (Val "p1") sample_cart ∅).1) =
  filter (λ item, productId item = Val "p2") (items sample_cart).
Proof.
  assert (Hne : @Val string "p2" ≠ Val "p1") by discriminate.
  split; [exact Hne|].
  exact (proj1 (proj2 (removeFromCart_drops_id sample_cart ∅ (Val "p1")))
           (Val "p2") Hne).
Defined.

(** When the quantities are non-negative integers that add up to
    [N < 2^53], [removeFromCart] lowers the total item count from [N] by
    exactly the quantities of the rows it removes. *)
Theorem removeFromCart_total this ls pid N :
  integer_total (items this) N → N < 2 ^ 53 →
  ∃ R, integer_total (filter (λ item, productId item = pid) (items this)) R ∧
       0 ≤ R ≤ N ∧
       getTotalItems this = number_of_Z N ∧
       getTotalItems (removeFromCart pid this ls).1 = number_of_Z (N - R).
Proof.
  intros HN Hbound.
  destruct (integer_total_split (λ x, productId x = pid) _ _ HN)
    as (R & HR & Hin & Hout).
  exists R. split_and!; [done|lia|lia|by apply getTotalItems_integer|].
  unfold removeFromCart. cbn [fst items with_items].
  apply getTotalItems_integer; [done|lia].
Qed.

Lemma removeFromCart_total_witness :
  integer_total (items sample_cart) (3 + (2 + 0)) ∧
  ∃ R, integer_total
         (filter (λ item, productId item = Val "p1") (items sample_cart)) R ∧
       getTotalItems (removeFromCart (Val "p1") sample_cart ∅).1 =
         number_of_Z (3 + (2 + 0) - R).
Proof.
  assert (H : integer_total (items sample_cart) (3 + (2 + 0))).
  { repeat constructor; lia. }
  split; [exact H|].
  destruct (removeFromCart_total sample_cart ∅ (Val "p1") _ H ltac:(lia))
    as (R & HR & _ & _ & Htotal).
  exists R. split; [exact HR|exact Htotal].
Defined.

Lemma total_after_add this ls pid name p (n : option Z) image' now N :
  integer_total (items this) N → 0 ≤ default 1 n → N + default 1 n < 2 ^ 53 →
  integer_total
    (items (addToCart pid name p (quantity_argument n) image' now this ls).1)
    (N + default 1 n).
Proof.
  intros HN Hn Hbound. pose proof (integer_total_nonneg _ _ HN).
  destruct (list_find (λ item, productId item = pid) (items this))
    as [[i item]|] eqn:Hfind.
  - rewrite (addToCart_found _ _ _ _ _ _ _ _ _ _ Hfind). cbn [fst items with_items].
    apply cart_find_Some in Hfind as [Hi _].
    destruct (integer_total_lookup _ _ _ _ HN Hi) as (m & Hm & Hmb & Hins).
    rewrite Hm, default_quantity. simpl.
    rewrite add_integers by (unfold safe; lia).
    replace (N + default 1 n) with (N - m + (m + default 1 n)) by lia.
    apply Hins; [done|lia].
  - apply cart_find_absent in Hfind.
    rewrite addToCart_not_found by done. cbn [fst items with_items].
    apply integer_total_app; [done|].
    rewrite <- (Z.add_0_r (default 1 n)).
    apply integer_total_cons; [|lia|constructor]. simpl. by rewrite default_quantity.
Qed.

(** When the quantities are non-negative integers that add up to [N],
    [addToCart] with an integer quantity [n >= 0] (1 when it is left out)
    raises the total item count from [N] to exactly [N + n], as long as
    that is below [2^53], whether the product was already in the cart or
    not; on a product already in the cart the number of rows stays the
    same. *)
Theorem addToCart_total this ls pid name p (n : option Z) image' now N :
  integer_total (items this) N → 0 ≤ default 1 n → N + default 1 n < 2 ^ 53 →
  getTotalItems this = number_of_Z N ∧
  getTotalItems (addToCart pid name p (quantity_argument n) image' now this ls).1 =
    number_of_Z (N + default 1 n) ∧
  length (items (addToCart pid name p (quantity_argument n) image' now this ls).1) =
    (length (items this) +
     (if decide (pid ∈ productId <$> items this) then 0 else 1))%nat.
Proof.
  intros HN Hn Hbound. split_and!.
  - apply getTotalItems_integer; [done|lia].
  - apply getTotalItems_integer; [by apply total_after_add|done].
  - destruct (decide (pid ∈ productId <$> items this)) as [Hin|Hout].
    + apply cart_find_present in Hin as (i & item & Hfind).
      rewrite (addToCart_found _ _ _ _ _ _ _ _ _ _ Hfind). cbn [fst items with_items].
      rewrite length_insert. lia.
    + rewrite addToCart_not_found by done. cbn [fst items with_items].
      rewrite length_app. simpl. lia.
Qed.

Lemma addToCart_total_witness :
  integer_total (items sample_cart) (3 + (2 + 0)) ∧
  getTotalItems
    (addToCart (Val "p1") (Val "Widget") (Val 9.99%float) (quantity_argument (Some 4))
       Undefined "t3" sample_cart ∅).1 = number_of_Z (3 + (2 + 0) + 4).
Proof.
  assert (H : integer_total (items sample_cart) (3 + (2 + 0))).
  { repeat constructor; lia. }
  split; [exact H|].
  exact (proj1 (proj2 (addToCart_total sample_cart ∅ (Val "p1") (Val "Widget")
           (Val 9.99%float) (Some 4) Undefined "t3" _ H ltac:(simpl; lia)
           ltac:(simpl; lia)))).
Defined.

(** What [updateQuantity] with an integer quantity [n] does to the total
    item count, when the quantities are non-negative integers that add up
    to [N] and [N + |n| < 2^53]: nothing when the id is not in the cart;
    with [n <= 0] the quantities of all rows of that id are taken off;
    otherwise the quantity of the row [find] returns is replaced by
    [n]. *)
Theorem updateQuantity_total this ls pid (n : Z) N :
  integer_total (items this) N → N + Z.abs n < 2 ^ 53 →
  getTotalItems this = number_of_Z N ∧
  match list_find (λ item, productId item = pid) (items this) with
  | None =>
      getTotalItems (updateQuantity pid (Val (number_of_Z n)) this ls).1 = number_of_Z N
  | Some (_, item) =>
      ∃ m R,
        quantity item = Val (number_of_Z m) ∧ 0 ≤ m ≤ N ∧
        integer_total (filter (λ item, productId item = pid) (items this)) R ∧
        0 ≤ R ≤ N ∧
        getTotalItems (updateQuantity pid (Val (number_of_Z n)) this ls).1 =
          number_of_Z (if n <=? 0 then N - R else N - m + n)
  end.
Proof.
  intros HN Hbound. pose proof (integer_total_nonneg _ _ HN).
  assert (Htotal : getTotalItems this = number_of_Z N)
    by (apply getTotalItems_integer; [done|lia]).
  split; [done|].
  destruct (list_find (λ item, productId item = pid) (items this))
    as [[i item]|] eqn:Hfind.
  - rewrite (updateQuantity_found _ _ _ _ _ _ Hfind).
    apply cart_find_Some in Hfind as [Hi _].
    destruct (integer_total_lookup _ _ _ _ HN Hi) as (m & Hm & Hmb & Hins).
    destruct (integer_total_split (λ x, productId x = pid) _ _ HN)
      as (R & HR & Hin & Hout).
    exists m, R. split_and!; [done|lia|lia|done|lia|lia|]. cbn [to_number].
    rewrite leb_zero_integer by (unfold safe; lia).
    destruct (Z.leb_spec n 0).
    + unfold removeFromCart. cbn [fst items with_items].
      apply getTotalItems_integer; [done|lia].
    + cbn [fst items with_items].
      apply getTotalItems_integer; [apply Hins; [done|lia]|lia].
  - by rewrite updateQuantity_not_found.
Qed.

Lemma updateQuantity_total_witness :
  integer_total (items sample_cart) (3 + (2 + 0)) ∧
  ∃ m R,
    quantity (row "p1" "Widget" 9.99%float 3%float "t1") = Val (number_of_Z m) ∧
    0 ≤ m ≤ 3 + (2 + 0) ∧
    integer_total
      (filter (λ item, productId item = Val "p1") (items sample_cart)) R ∧
    0 ≤ R ≤ 3 + (2 + 0) ∧
    getTotalItems
      (updateQuantity (Val "p1") (Val (number_of_Z 7)) sample_cart ∅).1 =
      number_of_Z (3 + (2 + 0) - m + 7).
Proof.
  assert (H : integer_total (items sample_cart) (3 + (2 + 0))).
  { repeat constructor; lia. }
  split; [exact H|].
  exact (proj2 (updateQuantity_total sample_cart ∅ (Val "p1") 7 _ H ltac:(simpl; lia))).
Defined.

End cart_counts.

(** ** How the cart calls compose *)

Section cart_composition.
Import DokanCart.
Implicit Types (this : t) (ls : Storage) (pid : value string) (l : list LineItem).

(** Adding a product that is not in the cart and removing it again gives
    back the cart as it was, with its items written to storage. *)
Theorem add_then_remove_restores this ls pid name p quantity' image' now :
  pid ∉ productId <$> items this →
  removeFromCart pid
    (addToCart pid name p quantity' image' now this ls).1
    (addToCart pid name p quantity' image' now this ls).2 =
  (this, saveCart this ls).
Proof.
  intros Habsent. rewrite addToCart_not_found by done.
  unfold removeFromCart. cbn [fst snd items with_items].
  rewrite filter_app, filter_keeps_other_ids by done.
  rewrite filter_cons_False by (intros Hne; by apply Hne).
  rewrite filter_nil, app_nil_r.
  destruct this as [k l]. unfold with_items. cbn [key items].
  f_equal. by rewrite saveCart_twice.
Qed.

Lemma add_then_remove_restores_witness :
  (Val "p9" ∉ productId <$> items sample_cart) ∧
  removeFromCart (Val "p9")
    (addToCart (Val "p9") (Val "Chair") (Val 40%float) (Val 2%float) Undefined "t3"
       sample_cart ∅).1
    (addToCart (Val "p9") (Val "Chair") (Val 40%float) (Val 2%float) Undefined "t3"
       sample_cart ∅).2 =
  (sample_cart, saveCart sample_cart ∅).
Proof.
  assert (H : Val "p9" ∉ productId <$> items sample_cart).
  { apply cart_find_absent. reflexivity. }
  split; [exact H|].
  exact (add_then_remove_restores sample_cart ∅ (Val "p9") (Val "Chair")
           (Val 40%float) (Val 2%float) Undefined "t3" H).
Defined.

(** [updateQuantity] is idempotent: a second call with the same product id
    and quantity changes neither the cart nor the storage, whatever the
    quantity is. *)
Theorem updateQuantity_idempotent this ls pid (q : value number) :
  updateQuantity pid q (updateQuantity pid q this ls).1
                       (updateQuantity pid q this ls).2 =
  updateQuantity pid q this ls.
Proof.
  destruct (list_find (λ item, productId item = pid) (items this))
    as [[i item]|] eqn:Hfind.
  - rewrite (updateQuantity_found _ _ _ _ _ _ Hfind).
    destruct (to_number q <=? 0)%float eqn:Hq.
    + unfold removeFromCart. cbn [fst snd].
      apply updateQuantity_not_found, cart_find_absent.
      cbn [items with_items]. apply removed_id_is_gone.
    + cbn [fst snd].
      rewrite (updateQuantity_found pid q _ _ i (with_quantity item q)).
      * rewrite Hq. cbn [items with_items with_quantity productId productName
                         price quantity image addedAt key].
        rewrite list_insert_insert_eq. unfold with_items. cbn [key items].
        f_equal. by rewrite saveCart_twice.
      * cbn [items with_items]. apply (find_after_update pid _ i item); [done|].
        by apply cart_find_Some in Hfind as [_ ?].
  - rewrite (updateQuantity_not_found _ _ this ls Hfind). cbn [fst snd].
    by apply updateQuantity_not_found.
Qed.

(** [clearCart] leaves an empty cart with both totals at zero, writes the
    empty array to storage, and loading from that storage gives the empty
    cart again. *)
Theorem clearCart_empties this ls :
  items (clearCart this ls).1 = [] ∧
  getTotalItems (clearCart this ls).1 = 0%float ∧
  getSubtotal (clearCart this ls).1 = 0%float ∧
  getItem (key this) (clearCart this ls).2 = Some (Document (JArray [])) ∧
  loadCart (clearCart this ls).1 (clearCart this ls).2 = Loaded (clearCart this ls).1.
Proof.
  unfold clearCart. cbn [fst snd]. split_and!; try done.
  - unfold saveCart, setItem, getItem. cbn. apply lookup_insert_eq.
  - unfold loadCart, saveCart, setItem, getItem. cbn [key items with_items].
    by rewrite lookup_insert_eq.
Qed.

(** Adding a product that is not in the cart raises the subtotal by the
    price times the quantity of the new row, in binary64. *)
Theorem addToCart_new_row_subtotal this ls pid name p quantity' image' now :
  pid ∉ productId <$> items this →
  getSubtotal (addToCart pid name p quantity' image' now this ls).1 =
  (getSubtotal this + to_number p * to_number (or_default 1%float quantity'))%float.
Proof.
  intros Habsent. rewrite addToCart_not_found by done.
  cbn [fst]. destruct this as [k l]. unfold with_items. cbn [key items].
  by rewrite getSubtotal_snoc.
Qed.

Lemma addToCart_new_row_subtotal_witness :
  (Val "p9" ∉ productId <$> items sample_cart) ∧
  getSubtotal (addToCart (Val "p9") (Val "Chair") (Val 40%float) (Val 2%float)
                 Undefined "t3" sample_cart ∅).1 =
  (getSubtotal sample_cart + 40 * 2)%float.
Proof.
  assert (H : Val "p9" ∉ productId <$> items sample_cart).
  { apply cart_find_absent. reflexivity. }
  split; [exact H|].
  exact (addToCart_new_row_subtotal sample_cart ∅ (Val "p9") (Val "Chair")
           (Val 40%float) (Val 2%float) Undefined "t3" H).
Defined.

End cart_composition.

(** ** Storage: other keys, missing key, reload *)

Section cart_storage.
Import DokanCart.
Implicit Types (this : t) (ls : Storage) (pid : value string) (l : list LineItem).
Implicit Types (s : t * Storage) (c : cart_call) (cs : list cart_call).

Lemma saveCart_other_key this ls k :
  k ≠ key this → getItem k (saveCart this ls) = getItem k ls.
Proof.
  intros Hk. unfold saveCart, setItem, getItem. by rewrite lookup_insert_ne.
Qed.

Lemma call_other_key c s k :
  k ≠ key s.1 → getItem k (call c s).2 = getItem k s.2.
Proof.
  destruct c as [pid name p q' img now|pid|pid q|], s as [this ls];
    cbn [call fst snd]; intros Hk.
  - unfold addToCart. cbn [snd].
    apply saveCart_other_key. by destruct (list_find _ _) as [[??]|].
  - unfold removeFromCart. cbn [snd]. by apply saveCart_other_key.
  - unfold updateQuantity.
    destruct (list_find _ _) as [[i item]|]; [|done]. cbn zeta.
    destruct (_ <=? _)%float; cbn [removeFromCart snd]; by apply saveCart_other_key.
  - unfold clearCart. cbn [snd]. by apply saveCart_other_key.
Qed.

(** No cart call writes under any key but the cart's own; in particular
    what a new wishlist would load is the same before and after the
    call. *)
Theorem cart_calls_keep_other_keys c s :
  (∀ k, k ≠ key s.1 → getItem k (call c s).2 = getItem k s.2) ∧
  (key s.1 = "dokan_cart" →
   DokanWishlist.constructor (call c s).2 = DokanWishlist.constructor s.2).
Proof.
  split; [intros k; apply call_other_key|].
  intros Hkey. unfold DokanWishlist.constructor, DokanWishlist.loadWishlist.
  cbn [DokanWishlist.key]. rewrite call_other_key; [done|].
  rewrite Hkey. discriminate.
Qed.

Lemma cart_calls_keep_other_keys_witness :
  key sample_cart = "dokan_cart" ∧
  DokanWishlist.constructor
    (call Clear (sample_cart, DokanWishlist.saveWishlist sample_wishlist ∅)).2 =
  Loaded sample_wishlist.
Proof.
  split; [reflexivity|].
  rewrite (proj2 (cart_calls_keep_other_keys Clear
             (sample_cart, DokanWishlist.saveWishlist sample_wishlist ∅)) eq_refl).
  reflexivity.
Defined.

Lemma parse_empty `{Json A} (doc : json) :
  JSON_parse (A:=A) doc = Some [] ↔ doc = JArray [].
Proof.
  split; [|by intros ->].
  destruct doc as [| | | |elements|]; try done. simpl.
  intros Hall%mapM_Some. apply Forall2_nil_inv_r in Hall. by subst.
Qed.

(** A new cart is empty exactly when nothing is stored under its key, the
    stored string is empty, or the stored document is the empty array. *)
Theorem constructor_empty_iff ls :
  constructor ls = Loaded empty_cart ↔
  getItem "dokan_cart" ls = None ∨
  getItem "dokan_cart" ls = Some (OtherText "") ∨
  getItem "dokan_cart" ls = Some (Document (JArray [])).
Proof.
  unfold constructor, loadCart. cbn [key].
  destruct (getItem "dokan_cart" ls) as [[doc|text]|]; split.
  - intros Hload. right. right. do 2 f_equal. apply (parse_empty (A:=LineItem)).
    destruct (JSON_parse doc) as [l|]; [|done].
    injection Hload as ->. done.
  - intros [?|[?|[= ->]]]; done.
  - intros Hload. right. left.
    destruct text as [|a text]; [done|discriminate Hload].
  - intros [?|[[= ->]|?]]; done.
  - by left.
  - done.
Qed.






(** When every row has a quantity of at least one, and the quantities are
    integers that add up to [N < 2^53], the total item count is [N], which
    is at least the number of rows, and it is zero only for the empty
    cart. *)
Theorem total_at_least_rows this N :
  quantities_positive (items this) →
  integer_total (items this) N → N < 2 ^ 53 →
  getTotalItems this = number_of_Z N ∧
  Z.of_nat (length (items this)) ≤ N ∧
  (getTotalItems this = 0%float ↔ items this = []).
Proof.
  intros Hpos HN Hbound.
  assert (Htotal : getTotalItems this = number_of_Z N)
    by (by apply getTotalItems_integer).
  assert (Hlen : Z.of_nat (length (items this)) ≤ N).
  { clear Htotal. revert Hpos Hbound. unfold quantities_positive.
    induction HN as [|x l n N Hq Hn Hl IH]; intros Hpos Hbound; [done|].
    pose proof (integer_total_nonneg _ _ Hl).
    apply Forall_cons in Hpos as [Hx Hpos]. rewrite Hq in Hx. simpl in Hx.
    rewrite one_leb_integer in Hx by (unfold safe; lia). apply Z.leb_le in Hx.
    cbn [length]. rewrite Nat2Z.inj_succ. specialize (IH Hpos). lia. }
  split_and!; [done|done|]. split.
  - intros Hzero. rewrite Htotal in Hzero.
    assert (HN0 : Some N = Some 0).
    { rewrite <- (integer_value_of_Z N), Hzero; [done|].
      pose proof (integer_total_nonneg _ _ HN). unfold safe. lia. }
    injection HN0 as ->. destruct (items this); [done|]. simpl in Hlen. lia.
  - intros Hnil. unfold getTotalItems. by rewrite Hnil.
Qed.

Lemma total_at_least_rows_witness :
  quantities_positive (items sample_cart) ∧
  integer_total (items sample_cart) (3 + (2 + 0)) ∧
  Z.of_nat (length (items sample_cart)) ≤ 3 + (2 + 0).
Proof.
  assert (H : quantities_positive (items sample_cart)).
  { repeat constructor. }
  assert (HN : integer_total (items sample_cart) (3 + (2 + 0))).
  { repeat constructor; lia. }
  split_and!; [exact H|exact HN|].
  exact (proj1 (proj2 (total_at_least_rows sample_cart _ H HN ltac:(lia)))).
Defined.

End cart_storage.

(** * Further properties of the wishlist *)

(** ** Membership, removal, size *)

Section wishlist_members.
Import DokanWishlist.
Implicit Types (this : t) (ls : Storage) (pid : value string) (l : list WishlistEntry).
Implicit Types (s : t * Storage) (c : wishlist_call) (cs : list wishlist_call).

Lemma isInWishlist_true pid this :
  isInWishlist pid this = true ↔ pid ∈ productId <$> items this.
Proof.
  unfold isInWishlist. induction (items this) as [|x l IH]; simpl.
  - split; [done|]. by intros ?%elem_of_nil.
  - rewrite orb_true_iff, bool_decide_eq_true, IH, elem_of_cons.
    split; (intros [Heq|Hin]; [left; by symmetry|by right]).
Qed.

Lemma isInWishlist_false pid this :
  isInWishlist pid this = false ↔ pid ∉ productId <$> items this.
Proof. rewrite <- isInWishlist_true. by destruct (isInWishlist pid this). Qed.

Lemma ids_after_remove pid pid' l :
  pid' ∈ productId <$> filter (λ item, productId item ≠ pid) l ↔
  pid' ∈ productId <$> l ∧ pid' ≠ pid.
Proof.
  rewrite !list_elem_of_fmap. split.
  - intros (x & -> & [Hne Hin]%list_elem_of_filter). split; [by exists x|done].
  - intros [(x & -> & Hin) Hne]. exists x. split; [done|].
    by apply list_elem_of_filter.
Qed.

Lemma saveWishlist_stored this ls :
  getItem (key this) (saveWishlist this ls) =
    Some (Document (JSON_stringify (items this))).
Proof. unfold saveWishlist, getItem, setItem. apply lookup_insert_eq. Qed.

Lemma isInWishlist_after_add this ls pid name p image' now :
  (addToWishlist pid name p image' now this ls).1.1 = negb (isInWishlist pid this) ∧
  isInWishlist pid (addToWishlist pid name p image' now this ls).1.2 = true.
Proof.
  split.
  - destruct (isInWishlist pid this) eqn:Hin.
    + apply isInWishlist_true in Hin. by rewrite addToWishlist_present.
    + apply isInWishlist_false in Hin. by rewrite addToWishlist_absent.
  - apply isInWishlist_true, addToWishlist_then_present.
Qed.

(** [isInWishlist] answers whether some entry has the given product id.
    [addToWishlist] returns the opposite of what [isInWishlist] answered
    before the call; after the call [isInWishlist] answers [true] for that
    id, and its answer for every other id is unchanged. *)
Theorem isInWishlist_and_add this ls pid name p image' now :
  (isInWishlist pid this = true ↔ pid ∈ productId <$> items this) ∧
  (addToWishlist pid name p image' now this ls).1.1 = negb (isInWishlist pid this) ∧
  isInWishlist pid (addToWishlist pid name p image' now this ls).1.2 = true ∧
  (∀ pid', pid' ≠ pid →
     isInWishlist pid' (addToWishlist pid name p image' now this ls).1.2 =
     isInWishlist pid' this).
Proof.
  split_and!.
  - apply isInWishlist_true.
  - apply isInWishlist_after_add.
  - apply isInWishlist_after_add.
  - intros pid' Hne. apply eq_true_iff_eq. rewrite !isInWishlist_true.
    destruct (decide (pid ∈ productId <$> items this)) as [Hin|Hout].
    + by rewrite addToWishlist_present.
    + rewrite addToWishlist_absent by done. cbn [fst snd items with_items].
      rewrite fmap_app, elem_of_app. simpl. rewrite list_elem_of_singleton.
      intuition congruence.
Qed.

Lemma isInWishlist_and_add_witness :
  (Val "p7" ≠ Val "p8") ∧
  isInWishlist (Val "p7")
    (addToWishlist (Val "p8") (Val "Desk") (Val 80%float) Undefined "t2"
       sample_wishlist ∅).1.2 =
  isInWishlist (Val "p7") sample_wishlist.
Proof.
  assert (Hne : @Val string "p7" ≠ Val "p8") by discriminate.
  split; [exact Hne|].
  exact (proj2 (proj2 (proj2
           (isInWishlist_and_add sample_wishlist ∅ (Val "p8") (Val "Desk")
              (Val 80%float) Undefined "t2"))) (Val "p7") Hne).
Defined.

(** After [removeFromWishlist], [isInWishlist] answers [false] for the
    removed id and as before for every other id; the wishlist has not
    grown, and the entries left are written to storage. *)
Theorem removeFromWishlist_forgets this ls pid :
  isInWishlist pid (removeFromWishlist pid this ls).1 = false ∧
  (∀ pid', pid' ≠ pid →
     isInWishlist pid' (removeFromWishlist pid this ls).1 = isInWishlist pid' this) ∧
  (getTotalItems (removeFromWishlist pid this ls).1 ≤ getTotalItems this)%nat ∧
  getItem (key this) (removeFromWishlist pid this ls).2 =
    Some (Document (JSON_stringify (items (removeFromWishlist pid this ls).1))).
Proof.
  unfold removeFromWishlist. cbn [fst snd]. split_and!.
  - apply isInWishlist_false. cbn [items with_items].
    rewrite ids_after_remove. by intros [_ Hne].
  - intros pid' Hne. apply eq_true_iff_eq. rewrite !isInWishlist_true.
    cbn [items with_items]. rewrite ids_after_remove. intuition.
  - unfold getTotalItems. cbn [items with_items]. apply length_filter.
  - apply (saveWishlist_stored (with_items this _)).
Qed.

Lemma removeFromWishlist_forgets_witness :
  (Val "p7" ≠ Val "p8") ∧
  isInWishlist (Val "p7") (removeFromWishlist (Val "p8") sample_wishlist ∅).1 =
  isInWishlist (Val "p7") sample_wishlist.
Proof.
  assert (Hne : @Val string "p7" ≠ Val "p8") by discriminate.
  split; [exact Hne|].
  exact (proj1 (proj2 (removeFromWishlist_forgets sample_wishlist ∅ (Val "p8")))
           (Val "p7") Hne).
Defined.

End wishlist_members.

(** ** Invariant, composition, storage *)

Section wishlist_calls.
Import DokanWishlist.
Implicit Types (this : t) (ls : Storage) (pid : value string) (l : list WishlistEntry).
Implicit Types (s : t * Storage) (c : wishlist_call) (cs : list wishlist_call).

Lemma wishlist_run_snoc cs c s :
  wishlist_run (cs ++ [c]) s = wishlist_step c (wishlist_run cs s).
Proof. unfold wishlist_run. by rewrite fold_left_app. Qed.

Lemma wishlist_keeps_other_ids pid l :
  pid ∉ productId <$> l → filter (λ item, productId item ≠ pid) l = l.
Proof.
  intros Hl. induction l as [|x l IH]; [done|].
  rewrite fmap_cons, not_elem_of_cons in Hl. destruct Hl as [Hx Hl].
  rewrite filter_cons_True by (intros ?; by apply Hx). by rewrite IH.
Qed.

Lemma wishlist_step_unique c s :
  wishlist_unique_ids (items s.1) →
  wishlist_unique_ids (items (wishlist_step c s).1).
Proof.
  unfold wishlist_unique_ids.
  destruct c as [pid name p img now|pid], s as [this ls];
    cbn [wishlist_step fst snd]; intros Hnd.
  - destruct (decide (pid ∈ productId <$> items this)) as [Hin|Hout].
    + by rewrite addToWishlist_present.
    + rewrite addToWishlist_absent by done. cbn [fst snd items with_items].
      rewrite fmap_app. apply NoDup_app.
      split_and!; [done| |apply NoDup_singleton].
      intros x Hx ->%list_elem_of_singleton. done.
  - cbn [removeFromWishlist fst items with_items].
    eapply sublist_NoDup; [exact Hnd|]. apply fmap_sublist, sublist_filter.
Qed.

Lemma wishlist_step_key c s : key (wishlist_step c s).1 = key s.1.
Proof.
  destruct c as [pid name p img now|pid], s as [this ls];
    cbn [wishlist_step fst snd]; [|done].
  unfold addToWishlist. by destruct (list_find _ _) as [[??]|].
Qed.

Lemma wishlist_step_in_sync c s :
  wishlist_in_sync s.1 s.2 →
  wishlist_in_sync (wishlist_step c s).1 (wishlist_step c s).2.
Proof.
  destruct c as [pid name p img now|pid], s as [this ls];
    cbn [wishlist_step fst snd]; intros Hsync.
  - unfold addToWishlist.
    destruct (list_find _ _) as [[??]|]; cbn [fst snd]; [done|].
    left. apply (saveWishlist_stored (with_items this _)).
  - left. apply (saveWishlist_stored (with_items this _)).
Qed.

Lemma wishlist_step_exact_prices c s :
  wishlist_adds_exact_price c →
  wishlist_exact_prices (items s.1) →
  wishlist_exact_prices (items (wishlist_step c s).1).
Proof.
  unfold wishlist_exact_prices.
  destruct c as [pid name p img now|pid], s as [this ls];
    cbn [wishlist_step fst snd wishlist_adds_exact_price]; intros Hp Hall.
  - unfold addToWishlist.
    destruct (list_find _ _) as [[??]|]; cbn [fst snd items with_items]; [done|].
    apply Forall_app. split; [done|]. by apply Forall_singleton.
  - apply Forall_forall. intros item [_ Hin]%list_elem_of_filter.
    by apply (proj1 (Forall_forall _ _) Hall).
Qed.

Lemma wishlist_step_other_key c s k :
  k ≠ key s.1 → getItem k (wishlist_step c s).2 = getItem k s.2.
Proof.
  destruct c as [pid name p img now|pid], s as [this ls];
    cbn [wishlist_step fst snd]; intros Hk.
  - unfold addToWishlist.
    destruct (list_find _ _) as [[??]|]; cbn [fst snd]; [done|].
    unfold saveWishlist, setItem, getItem. by rewrite lookup_insert_ne.
  - unfold removeFromWishlist, saveWishlist, setItem, getItem. cbn [snd].
    by rewrite lookup_insert_ne.
Qed.

Lemma length_without pid l :
  wishlist_unique_ids l → pid ∈ productId <$> l →
  S (length (filter (λ item, productId item ≠ pid) l)) = length l.
Proof.
  unfold wishlist_unique_ids. induction l as [|x l IH]; intros Hnd Hin.
  - by apply elem_of_nil in Hin.
  - rewrite fmap_cons in Hnd, Hin. apply NoDup_cons in Hnd as [Hx Hnd].
    destruct (decide (productId x = pid)) as [Heq|Hne].
    + rewrite filter_cons_False by (intros Hne; by apply Hne).
      rewrite wishlist_keeps_other_ids by (by rewrite <- Heq). done.
    + rewrite filter_cons_True by done. simpl. f_equal. apply IH; [done|].
      apply elem_of_cons in Hin as [Heq|Hin]; [by symmetry in Heq|done].
Qed.

Lemma wishlist_reload_in_sync this ls :
  key this = "dokan_wishlist" → wishlist_in_sync this ls →
  constructor ls = Loaded (with_items this (reloaded_entry <$> items this)).
Proof.
  destruct this as [k l]. cbn [key items]. intros -> Hsync.
  unfold constructor, loadWishlist. cbn [key].
  destruct Hsync as [Hsaved|[Hnone Hnil]]; cbn [key items] in *.
  - rewrite Hsaved. rewrite (parse_stringify reloaded_entry); [done|].
    apply Forall_forall. intros item _. apply WishlistEntry_of_to_json.
  - rewrite Hnone. by subst.
Qed.

(** Every sequence of [addToWishlist] and [removeFromWishlist] calls keeps
    at most one entry per product id, from any wishlist that has this
    property, the empty one in particular. *)
Theorem wishlist_unique_ids_kept cs ls :
  (∀ this, wishlist_unique_ids (items this) →
     wishlist_unique_ids (items (wishlist_run cs (this, ls)).1)) ∧
  wishlist_unique_ids (items (wishlist_run cs (empty_wishlist, ls)).1).
Proof.
  assert (Hkept : ∀ this, wishlist_unique_ids (items this) →
            wishlist_unique_ids (items (wishlist_run cs (this, ls)).1)).
  { intros this Hnd. induction cs as [|c cs IH] using rev_ind; [done|].
    rewrite wishlist_run_snoc. by apply wishlist_step_unique. }
  split; [done|]. apply Hkept. apply NoDup_nil_2.
Qed.

Lemma wishlist_unique_ids_kept_witness :
  wishlist_unique_ids (items sample_wishlist) ∧
  wishlist_unique_ids
    (items (wishlist_run
              [WAdd (Val "p7") (Val "Lamp") (Val 12.5%float) Undefined "t2";
               WAdd (Val "p8") (Val "Desk") (Val 80%float) Undefined "t3";
               WRemove (Val "p7")] (sample_wishlist, ∅)).1).
Proof.
  assert (H : wishlist_unique_ids (items sample_wishlist)).
  { apply NoDup_singleton. }
  split; [exact H|].
  exact (proj1 (wishlist_unique_ids_kept _ ∅) sample_wishlist H).
Defined.

(** The size of the wishlist: [addToWishlist] adds one entry exactly when
    the id was not there, and [removeFromWishlist] takes exactly one entry
    off when the id was there and ids are unique. *)
Theorem wishlist_size this ls pid name p image' now :
  getTotalItems (addToWishlist pid name p image' now this ls).1.2 =
    (getTotalItems this + (if isInWishlist pid this then 0 else 1))%nat ∧
  (wishlist_unique_ids (items this) → isInWishlist pid this = true →
     S (getTotalItems (removeFromWishlist pid this ls).1) = getTotalItems this) ∧
  (isInWishlist pid this = false →
     getTotalItems (removeFromWishlist pid this ls).1 = getTotalItems this).
Proof.
  unfold getTotalItems. split_and!.
  - destruct (isInWishlist pid this) eqn:Hin.
    + apply isInWishlist_true in Hin. rewrite addToWishlist_present by done.
      simpl. lia.
    + apply isInWishlist_false in Hin. rewrite addToWishlist_absent by done.
      cbn [fst snd items with_items]. rewrite length_app. simpl. lia.
  - intros Hnd Hin%isInWishlist_true. cbn [removeFromWishlist fst items with_items].
    by apply length_without.
  - intros Hout%isInWishlist_false. cbn [removeFromWishlist fst items with_items].
    by rewrite wishlist_keeps_other_ids.
Qed.

Lemma wishlist_size_witness :
  wishlist_unique_ids (items sample_wishlist) ∧
  isInWishlist (Val "p7") sample_wishlist = true ∧
  S (getTotalItems (removeFromWishlist (Val "p7") sample_wishlist ∅).1) =
    getTotalItems sample_wishlist ∧
  isInWishlist (Val "p8") sample_wishlist = false ∧
  getTotalItems (removeFromWishlist (Val "p8") sample_wishlist ∅).1 =
    getTotalItems sample_wishlist.
Proof.
  assert (H : wishlist_unique_ids (items sample_wishlist)).
  { apply NoDup_singleton. }
  split_and!; [exact H|reflexivity| |reflexivity|].
  - exact (proj1 (proj2 (wishlist_size sample_wishlist ∅ (Val "p7") Undefined
                           Undefined Undefined "")) H eq_refl).
  - exact (proj2 (proj2 (wishlist_size sample_wishlist ∅ (Val "p8") Undefined
                           Undefined Undefined "")) eq_refl).
Defined.

(** Adding a product that is not in the wishlist and removing it again
    gives back the wishlist as it was, with its entries written to
    storage. *)
Theorem wishlist_add_then_remove_restores this ls pid name p image' now :
  pid ∉ productId <$> items this →
  removeFromWishlist pid
    (addToWishlist pid name p image' now this ls).1.2
    (addToWishlist pid name p image' now this ls).2 =
  (this, saveWishlist this ls).
Proof.
  intros Habsent. rewrite addToWishlist_absent by done.
  unfold removeFromWishlist. cbn [fst snd items with_items].
  rewrite filter_app, wishlist_keeps_other_ids by done.
  rewrite filter_cons_False by (intros Hne; by apply Hne).
  rewrite filter_nil, app_nil_r.
  destruct this as [k l]. unfold with_items, saveWishlist, setItem. cbn [key items].
  f_equal. apply insert_insert_eq.
Qed.

Lemma wishlist_add_then_remove_restores_witness :
  (Val "p8" ∉ productId <$> items sample_wishlist) ∧
  removeFromWishlist (Val "p8")
    (addToWishlist (Val "p8") (Val "Desk") (Val 80%float) Undefined "t2"
       sample_wishlist ∅).1.2
    (addToWishlist (Val "p8") (Val "Desk") (Val 80%float) Undefined "t2"
       sample_wishlist ∅).2 =
  (sample_wishlist, saveWishlist sample_wishlist ∅).
Proof.
  assert (H : Val "p8" ∉ productId <$> items sample_wishlist).
  { apply wishlist_find_absent. reflexivity. }
  split; [exact H|].
  exact (wishlist_add_then_remove_restores sample_wishlist ∅ (Val "p8") (Val "Desk")
           (Val 80%float) Undefined "t2" H).
Defined.

(** No wishlist call writes under any key but the wishlist's own; in
    particular what a new cart would load is the same before and after
    the call. *)
Theorem wishlist_calls_keep_other_keys c s :
  (∀ k, k ≠ key s.1 → getItem k (wishlist_step c s).2 = getItem k s.2) ∧
  (key s.1 = "dokan_wishlist" →
   DokanCart.constructor (wishlist_step c s).2 = DokanCart.constructor s.2).
Proof.
  split; [intros k; apply wishlist_step_other_key|].
  intros Hkey. unfold DokanCart.constructor, DokanCart.loadCart.
  cbn [DokanCart.key]. rewrite wishlist_step_other_key; [done|].
  rewrite Hkey. discriminate.
Qed.

Lemma wishlist_calls_keep_other_keys_witness :
  key sample_wishlist = "dokan_wishlist" ∧
  DokanCart.constructor
    (wishlist_step (WRemove (Val "p7"))
       (sample_wishlist, DokanCart.saveCart sample_cart ∅)).2 =
  Loaded sample_cart.
Proof.
  split; [reflexivity|].
  rewrite (proj2 (wishlist_calls_keep_other_keys (WRemove (Val "p7"))
             (sample_wishlist, DokanCart.saveCart sample_cart ∅)) eq_refl).
  reflexivity.
Defined.

(** A page reload restores the wishlist: from a wishlist that agrees with
    the storage, after any sequence of calls, a new wishlist built from
    the storage is the wishlist in memory, as long as the prices involved
    are finite and not negative zero.  Whatever the prices are, it has the
    entries of the wishlist in memory, in their order, with the prices as
    JSON reproduces them. *)
Theorem wishlist_reload_after_calls cs s :
  key s.1 = "dokan_wishlist" → wishlist_in_sync s.1 s.2 →
  (wishlist_exact_prices (items s.1) →
   Forall wishlist_adds_exact_price cs →
   constructor (wishlist_run cs s).2 = Loaded (wishlist_run cs s).1) ∧
  constructor (wishlist_run cs s).2 =
    Loaded (with_items (wishlist_run cs s).1
              (reloaded_entry <$> items (wishlist_run cs s).1)).
Proof.
  intros Hkey Hsync.
  assert (key (wishlist_run cs s).1 = "dokan_wishlist" ∧
          wishlist_in_sync (wishlist_run cs s).1 (wishlist_run cs s).2 ∧
          (wishlist_exact_prices (items s.1) →
           Forall wishlist_adds_exact_price cs →
           wishlist_exact_prices (items (wishlist_run cs s).1))) as (Hk & Hs & He).
  { induction cs as [|c cs IH] using rev_ind; [done|].
    destruct IH as (IHk & IHs & IHe). rewrite wishlist_run_snoc. split_and!.
    - by rewrite wishlist_step_key.
    - by apply wishlist_step_in_sync.
    - intros Hexact [Hcs Hc%Forall_inv]%Forall_app.
      apply wishlist_step_exact_prices; [done|by apply IHe]. }
  rewrite (wishlist_reload_in_sync (wishlist_run cs s).1) by done.
  split; [|done]. intros Hexact Hcs.
  rewrite (fmap_id_Forall reloaded_entry (λ item, exact_value (price item)))
    by (apply reloaded_entry_exact || by apply He).
  by destruct (wishlist_run cs s).1.
Qed.

Lemma wishlist_reload_after_calls_witness :
  key empty_wishlist = "dokan_wishlist" ∧
  constructor
    (wishlist_run [WAdd (Val "p7") (Val "Lamp") (Val 12.5%float) Undefined "t1";
                   WAdd (Val "p8") (Val "Desk") (Val 80%float) Undefined "t2";
                   WRemove (Val "p7")] (empty_wishlist, ∅)).2 =
  Loaded
    (wishlist_run [WAdd (Val "p7") (Val "Lamp") (Val 12.5%float) Undefined "t1";
                   WAdd (Val "p8") (Val "Desk") (Val 80%float) Undefined "t2";
                   WRemove (Val "p7")] (empty_wishlist, ∅)).1.
Proof.
  split; [reflexivity|].
  apply (wishlist_reload_after_calls _ (empty_wishlist, ∅)).
  - reflexivity.
  - right. split; reflexivity.
  - apply Forall_nil_2.
  - repeat constructor.
Defined.

End wishlist_calls.

(** * The storefront *)

(** ** The add-to-cart button and the wishlist function *)

Section store.
Import DokanCart.

Lemma handleAddToCart_call pid name (p : number) dataset_image now
    (store : DokanStore.t) ls :
  ∃ image',
    ((DokanStore.cart (DokanStore.handleAddToCart pid name p dataset_image now store ls).1),
     (DokanStore.handleAddToCart pid name p dataset_image now store ls).2) =
    call (cart_call_of (IAdd pid name (Val p) (Some 1) image' now))
         (DokanStore.cart store, ls).
Proof.
  exists (Val (match dataset_image with Val s => s | _ => "" end)).
  unfold DokanStore.handleAddToCart.
  cbn [fst snd DokanStore.cart call cart_call_of quantity_argument].
  rewrite number_of_Z_1. symmetry. apply surjective_pairing.
Qed.

Lemma handleAddToCart_total pid name (p : number) dataset_image now
    (store : DokanStore.t) ls N :
  integer_total (items (DokanStore.cart store)) N → N + 1 < 2 ^ 53 →
  getTotalItems
    (DokanStore.cart (DokanStore.handleAddToCart pid name p dataset_image now store ls).1) =
  number_of_Z (N + 1).
Proof.
  intros HN Hbound.
  destruct (handleAddToCart_call pid name p dataset_image now store ls)
    as [image' Hcall].
  apply (f_equal fst) in Hcall. cbn [fst] in Hcall. rewrite Hcall.
  cbn [call cart_call_of fst snd].
  apply getTotalItems_integer; [|done].
  by apply (total_after_add _ _ _ _ _ (Some 1)).
Qed.

(** One click on an add-to-cart button raises the cart's total item count
    by one, whatever the button's data attributes are (the quantities being
    non-negative integers, the total below [2^53 - 1]), leaves the
    wishlist object alone, writes the cart to storage, writes under no
    other key, and keeps the data-model invariant of the cart (for integer
    quantities between 1 and a bound below [2^53 - 1]). *)
Theorem handleAddToCart_adds_one pid name (p : number) dataset_image now
    (store : DokanStore.t) ls :
  let r := DokanStore.handleAddToCart pid name p dataset_image now store ls in
  (∀ N, integer_total (items (DokanStore.cart store)) N → N + 1 < 2 ^ 53 →
     getTotalItems (DokanStore.cart store) = number_of_Z N ∧
     getTotalItems (DokanStore.cart r.1) = number_of_Z (N + 1)) ∧
  DokanStore.wishlist r.1 = DokanStore.wishlist store ∧
  persisted (DokanStore.cart r.1) r.2 ∧
  (∀ k, k ≠ key (DokanStore.cart store) → getItem k r.2 = getItem k ls) ∧
  (unique_ids (items (DokanStore.cart store)) →
   unique_ids (items (DokanStore.cart r.1))) ∧
  (∀ B, 0 ≤ B → B + 1 < 2 ^ 53 →
     unique_ids (items (DokanStore.cart store)) →
     quantities_within B (items (DokanStore.cart store)) →
     cart_invariant (DokanStore.cart r.1) ∧
     quantities_within (B + 1) (items (DokanStore.cart r.1))).
Proof.
  intros r. subst r.
  destruct (handleAddToCart_call pid name p dataset_image now store ls)
    as [image' Hcall].
  pose proof (f_equal fst Hcall) as Hcart. pose proof (f_equal snd Hcall) as Hls.
  cbn [fst snd] in Hcart, Hls.
  split_and!.
  - intros N HN Hbound. split.
    + apply getTotalItems_integer; [done|lia].
    + by apply handleAddToCart_total.
  - done.
  - unfold DokanStore.handleAddToCart, addToCart. cbn [fst snd DokanStore.cart].
    apply saveCart_persisted.
  - intros k Hk. rewrite Hls. by apply call_other_key.
  - intros Hnd. rewrite Hcart. by apply call_unique_ids.
  - intros B HB Hbound Hnd Hrows.
    assert (Hwithin : quantities_within (B + 1)
              (items (DokanStore.cart
                 (DokanStore.handleAddToCart pid name p dataset_image now store ls).1))).
    { rewrite Hcart.
      apply (call_quantities_within (IAdd pid name (Val p) (Some 1) image' now)
               (DokanStore.cart store, ls) B); simpl; (done || lia). }
    split; [|done]. split.
    + rewrite Hcart. by apply call_unique_ids.
    + by apply (quantities_within_positive (B + 1)).
Qed.

Lemma handleAddToCart_adds_one_witness :
  integer_total (items sample_cart) (3 + (2 + 0)) ∧
  getTotalItems
    (DokanStore.cart
       (DokanStore.handleAddToCart (Val "p1") (Val "Widget") 9.99%float Undefined "t3"
          {| DokanStore.cart := sample_cart;
             DokanStore.wishlist := sample_wishlist |} ∅).1) =
  number_of_Z (3 + (2 + 0) + 1).
Proof.
  assert (H : integer_total (items sample_cart) (3 + (2 + 0))).
  { repeat constructor; lia. }
  split; [exact H|].
  exact (proj2 (proj1
           (handleAddToCart_adds_one (Val "p1") (Val "Widget") 9.99%float Undefined "t3"
              {| DokanStore.cart := sample_cart;
                 DokanStore.wishlist := sample_wishlist |} ∅) _ H ltac:(lia))).
Defined.



End store.

(** ** A price that is not a number *)

Section not_a_number.
Import DokanCart.

Lemma subtotal_stays_nan (l : list LineItem) :
  fold_left
    (λ total item,
       (total + to_number (price item) * to_number (quantity item))%float)
    l nan = nan.
Proof. induction l as [|x l IH]; [done|]. simpl. by rewrite nan_add_l. Qed.

(** A single row whose price is [NaN], which is what [parseFloat] hands
    to [addToCart] for an unreadable price attribute, makes the subtotal
    of the whole cart [NaN], whatever the other rows are. *)
Theorem nan_price_poisons_subtotal this item :
  item ∈ items this → to_number (price item) = nan → getSubtotal this = nan.
Proof.
  intros (l1 & l2 & Hsplit)%list_elem_of_split Hnan.
  unfold getSubtotal. rewrite Hsplit, fold_left_app. simpl.
  rewrite Hnan, nan_mul_l, nan_add_r. apply subtotal_stays_nan.
Qed.

Lemma nan_price_poisons_subtotal_witness :
  getSubtotal
    (DokanStore.cart
       (DokanStore.handleAddToCart (Val "p3") (Val "Broken") nan Undefined "t3"
          {| DokanStore.cart := sample_cart;
             DokanStore.wishlist := sample_wishlist |} ∅).1) = nan.
Proof.
  apply (nan_price_poisons_subtotal _ (row "p3" "Broken" nan 1%float "t3")).
  - apply list_elem_of_lookup. exists 2%nat. reflexivity.
  - reflexivity.
Defined.

End not_a_number.

(** ** Which button a click reaches *)

Section delegation.
Import DokanCart.

Lemma closest_target cls (e : ClickEvent) :
  contains cls (target e) = true → closest cls e = Some (target e).
Proof.
  unfold contains, closest. intros Hcls%bool_decide_eq_true. simpl.
  by rewrite decide_True.
Qed.

Lemma closest_Some cls (e : ClickEvent) button :
  closest cls e = Some button →
  ∃ i, (target e :: ancestors e) !! i = Some button ∧ cls ∈ classList button ∧
       ∀ j element, (target e :: ancestors e) !! j = Some element → (j < i)%nat →
                    cls ∉ classList element.
Proof.
  unfold closest. intros ([i b] & Hfind & Heq)%fmap_Some. simpl in Heq. subst b.
  apply list_find_Some in Hfind. by exists i.
Qed.

Lemma closest_None cls (e : ClickEvent) :
  closest cls e = None ↔
  ∀ element, element ∈ target e :: ancestors e → cls ∉ classList element.
Proof.
  unfold closest. rewrite fmap_None, list_find_None, Forall_forall. done.
Qed.

(** The click listener acts on the clicked element itself or else on its
    nearest ancestor of class [add-to-cart], and on nothing when there is
    none: it behaves as [closest] alone decides, the separate test on the
    target being covered by it.  A click inside a button raises the cart's
    total item count by one (the quantities being non-negative integers,
    the total below [2^53 - 1]); a click anywhere else changes neither
    the store nor the storage. *)
Theorem click_reaches_nearest_button (e : ClickEvent) now (store : DokanStore.t) ls :
  click_listener e now store ls =
    match closest "add-to-cart" e with
    | Some button =>
        DokanStore.handleAddToCart (data_productId button) (data_productName button)
          (data_price button) (data_image button) now store ls
    | None => (store, ls)
    end ∧
  (∀ button, closest "add-to-cart" e = Some button →
     ∃ i, (target e :: ancestors e) !! i = Some button ∧
          "add-to-cart" ∈ classList button ∧
          ∀ j element, (target e :: ancestors e) !! j = Some element → (j < i)%nat →
                       "add-to-cart" ∉ classList element) ∧
  (is_Some (closest "add-to-cart" e) →
   ∀ N, integer_total (items (DokanStore.cart store)) N → N + 1 < 2 ^ 53 →
     getTotalItems (DokanStore.cart store) = number_of_Z N ∧
     getTotalItems (DokanStore.cart (click_listener e now store ls).1) =
       number_of_Z (N + 1)) ∧
  ((∀ element, element ∈ target e :: ancestors e →
      "add-to-cart" ∉ classList element) →
   click_listener e now store ls = (store, ls)).
Proof.
  assert (Hlistener : click_listener e now store ls =
    match closest "add-to-cart" e with
    | Some button =>
        DokanStore.handleAddToCart (data_productId button) (data_productName button)
          (data_price button) (data_image button) now store ls
    | None => (store, ls)
    end).
  { unfold click_listener.
    destruct (contains "add-to-cart" (target e)) eqn:Hc.
    - by rewrite (closest_target _ _ Hc).
    - simpl. destruct (closest "add-to-cart" e) as [button|] eqn:Hcl.
      + by rewrite bool_decide_eq_true_2.
      + rewrite bool_decide_eq_false_2; [done|]. by intros [? ?]. }
  split_and!; [done|apply closest_Some| |].
  - intros [button Hcl] N HN Hbound. rewrite Hlistener, Hcl. split.
    + apply getTotalItems_integer; [done|lia].
    + by apply handleAddToCart_total.
  - intros Hnone%closest_None. by rewrite Hlistener, Hnone.
Qed.

Lemma click_reaches_nearest_button_witness :
  is_Some (closest "add-to-cart" icon_in_button) ∧
  integer_total (items sample_cart) (3 + (2 + 0)) ∧
  getTotalItems
    (DokanStore.cart
       (click_listener icon_in_button "t3"
          {| DokanStore.cart := sample_cart;
             DokanStore.wishlist := sample_wishlist |} ∅).1) = 6%float.
Proof.
  assert (H : is_Some (closest "add-to-cart" icon_in_button)).
  { by exists widget_button. }
  assert (HN : integer_total (items sample_cart) (3 + (2 + 0))).
  { repeat constructor; lia. }
  split_and!; [exact H|exact HN|].
  rewrite (proj2 (proj1 (proj2 (proj2 (click_reaches_nearest_button icon_in_button "t3"
             {| DokanStore.cart := sample_cart;
                DokanStore.wishlist := sample_wishlist |} ∅))) H _ HN ltac:(lia))).
  reflexivity.
Defined.

End delegation.
